(** * www2csv.sql: the SQL write target ([SQLTarget]) and its batched write loop

    A shallow embedding of [src/www2csv/sql.py].  The writer is a Python
    object whose methods mutate its attributes and talk to a PEP-249 driver
    (a connection and a cursor).  The attributes are a record, the methods
    are computations in a small state-and-exception monad that keeps the
    mutated object when an exception is raised (as Python does), and the
    driver is an arbitrary oracle that decides, from the history of the
    session, whether each call returns or raises.  [logging.debug] calls are
    diagnostics without effect on the writer and are left out. *)

From Stdlib Require Import String Ascii ZArith List Bool Lia DecimalString.
From Stdlib Require DecimalNat FinFun.
Import ListNotations.
Local Open Scope string_scope.
Local Open Scope Z_scope.

(** ** Python values as the writer observes them *)

(** The classes that key the type map (lines 101-115), and any other class. *)
Inductive pytype : Type :=
| py_str | py_int | py_float | py_date | py_time | py_datetime
| Url | IPv4Address | IPv6Address | IPv4Port | IPv6Port
| Hostname | Filename
| py_other (name : string).

Definition pytype_eq_dec (a b : pytype) : {a = b} + {a <> b}.
Proof. decide equality. apply string_dec. Defined.

Definition pytype_eqb (a b : pytype) : bool :=
  if pytype_eq_dec a b then true else false.

(** A value is seen through [type(v)], [isinstance(v, ...)], [int(v)] and
    [str(v)] only.  The classes of [www2csv.datatypes] are declared outside
    this module, so a value carries the ancestors of its class itself. *)
Record value : Type := Value {
  type_ : pytype;            (* type(v) *)
  bases : list pytype;       (* the proper ancestors of type(v) *)
  int_ : option Z;           (* int(v); None when int(v) raises *)
  str_ : string;             (* str(v) *)
}.

Definition isinstance (v : value) (classes : list pytype) : bool :=
  existsb (fun c => pytype_eqb c (type_ v) || existsb (pytype_eqb c) (bases v))
          classes.

(** A row is a tuple, or a namedtuple that also has [_fields]; [text] is
    [str(row)]. *)
Record row : Type := Row {
  _fields : option (list string);
  items : list value;
  text : string;
}.

Definition len (r : row) : nat := length (items r).

(** What is handed to the cursor for one column. *)
Inductive param : Type :=
| Unchanged (v : value)
| IntForm (z : Z)
| StrForm (s : string).

(** The entries of [_row_casts]: [int], [str]; [None] is [option]'s. *)
Inductive cast : Type := cast_int | cast_str.

(** ** Exceptions *)

Inductive exn : Type :=
| NameError (msg : string)
| ValueError (msg : string)
| TypeError (msg : string)
| AttributeError (msg : string)
| ZeroDivisionError
| KeyError_type (key : pytype)
| KeyError_str (key : string)
| Error (msg : string)            (* an instance of db_module.Error *)
| OtherException (msg : string).  (* anything else a driver raises *)

Inductive result (A : Type) : Type :=
| Ok (a : A)
| Raise (e : exn).
Arguments Ok {A} a.
Arguments Raise {A} e.

Definition rbind {A B} (r : result A) (f : A -> result B) : result B :=
  match r with
  | Ok a => f a
  | Raise e => Raise e
  end.

(** A list comprehension whose element expression may raise. *)
Fixpoint comprehension {A B} (f : A -> result B) (l : list A) : result (list B) :=
  match l with
  | [] => Ok []
  | a :: l' => rbind (f a) (fun b => rbind (comprehension f l') (fun bs => Ok (b :: bs)))
  end.

(** ** The driver *)

Inductive call : Type :=
| connection_cursor
| connection_commit
| cursor_execute (sql : option string) (params : option (list param))
| cursor_close.

Inductive outcome : Type :=
| Returned
| RaisedError (msg : string)      (* db_module.Error *)
| RaisedOther (msg : string).

Inductive event : Type :=
| Called (c : call) (o : outcome)
| Warned (msg : string).          (* warnings.warn(msg, SQLWarning) *)

(** The driver answers a call knowing everything that happened before. *)
Definition driver : Type := list event -> call -> outcome.

(** ** The writer object *)

Record db_module_t : Type := DbModule {
  paramstyle : option string;     (* None: the module has no such global *)
  Error_class : bool;             (* hasattr(db_module, 'Error') *)
}.

Record SQLTarget : Type := Target {
  db_module : db_module_t;
  table : string;
  commit : Z;
  create_table : bool;
  drop_table : bool;
  ignore_drop_errors : bool;
  type_map : list (pytype * string);
  _first_row : option row;
  _row_casts : option (list (option cast));
  _cursor : bool;                 (* false: None *)
  _insert : option string;
  _counter : Z;
}.

Definition set_first_row (v : option row) (s : SQLTarget) : SQLTarget :=
  Target (db_module s) (table s) (commit s) (create_table s) (drop_table s)
         (ignore_drop_errors s) (type_map s)
         v (_row_casts s) (_cursor s) (_insert s) (_counter s).

Definition set_row_casts (v : option (list (option cast))) (s : SQLTarget) : SQLTarget :=
  Target (db_module s) (table s) (commit s) (create_table s) (drop_table s)
         (ignore_drop_errors s) (type_map s)
         (_first_row s) v (_cursor s) (_insert s) (_counter s).

Definition set_cursor (v : bool) (s : SQLTarget) : SQLTarget :=
  Target (db_module s) (table s) (commit s) (create_table s) (drop_table s)
         (ignore_drop_errors s) (type_map s)
         (_first_row s) (_row_casts s) v (_insert s) (_counter s).

Definition set_insert (v : option string) (s : SQLTarget) : SQLTarget :=
  Target (db_module s) (table s) (commit s) (create_table s) (drop_table s)
         (ignore_drop_errors s) (type_map s)
         (_first_row s) (_row_casts s) (_cursor s) v (_counter s).

Definition set_counter (v : Z) (s : SQLTarget) : SQLTarget :=
  Target (db_module s) (table s) (commit s) (create_table s) (drop_table s)
         (ignore_drop_errors s) (type_map s)
         (_first_row s) (_row_casts s) (_cursor s) (_insert s) v.

(** [d[k]] on a dict keyed by classes. *)
Fixpoint getitem (d : list (pytype * string)) (k : pytype) : result string :=
  match d with
  | [] => Raise (KeyError_type k)
  | (k', v) :: d' => if pytype_eqb k' k then Ok v else getitem d' k
  end.

(** ** The monad of methods

    A method gets the object and the history of the session, and gives back
    the object as it left it, the events it added, and its result. *)

Record run (A : Type) : Type := Run {
  self_of : SQLTarget;
  events_of : list event;
  result_of : result A;
}.
Arguments Run {A} _ _ _.
Arguments self_of {A} _.
Arguments events_of {A} _.
Arguments result_of {A} _.

Definition M (A : Type) : Type := SQLTarget -> list event -> run A.

Definition ret {A} (a : A) : M A := fun self _ => Run self [] (Ok a).

Definition raise {A} (e : exn) : M A := fun self _ => Run self [] (Raise e).

Definition bind {A B} (m : M A) (f : A -> M B) : M B := fun self h =>
  match m self h with
  | Run self1 events1 (Ok a) =>
      match f a self1 (h ++ events1)%list with
      | Run self2 events2 r => Run self2 (events1 ++ events2)%list r
      end
  | Run self1 events1 (Raise e) => Run self1 events1 (Raise e)
  end.

Definition get : M SQLTarget := fun self _ => Run self [] (Ok self).

Definition modify (f : SQLTarget -> SQLTarget) : M unit :=
  fun self _ => Run (f self) [] (Ok tt).

Definition lift {A} (r : result A) : M A := fun self _ => Run self [] r.

Definition emit (e : event) : M unit := fun self _ => Run self [e] (Ok tt).

Declare Scope py_scope.
Delimit Scope py_scope with py.
Notation "x <- m ;; k" := (bind m (fun x => k))
  (at level 61, m at next level, right associativity) : py_scope.
Notation "m ;; k" := (bind m (fun _ => k))
  (at level 61, right associativity) : py_scope.
Local Open Scope py_scope.

(** ** String formatting *)

(** ['%d' % n] for a natural number. *)
Definition pct_d (n : nat) : string := NilZero.string_of_uint (Nat.to_uint n).

Definition upper_ascii (c : ascii) : ascii :=
  if (Ascii.leb "a" c && Ascii.leb c "z")%bool
  then ascii_of_nat (nat_of_ascii c - 32)
  else c.

(** [s.upper()], on ASCII text. *)
Fixpoint upper (s : string) : string :=
  match s with
  | EmptyString => EmptyString
  | String c s' => String (upper_ascii c) (upper s')
  end.

Definition startswith (s p : string) : bool := String.prefix p s.

Definition enumerate {A} (l : list A) : list (nat * A) :=
  combine (seq 0 (length l)) l.

(** [row._fields if hasattr(row, '_fields') else
     ['field%d' % (i + 1) for i in range(len(row))]] *)
Definition field_names (r : row) : list string :=
  match _fields r with
  | Some names => names
  | None => map (fun i => "field" ++ pct_d (i + 1)%nat) (seq 0 (len r))
  end.

(** ** Construction (lines 81-120) *)

(** The keyword arguments of [SQLTarget.__init__] and their defaults. *)
Record options : Type := Options {
  opt_commit : Z;
  opt_create_table : bool;
  opt_drop_table : bool;
  opt_ignore_drop_errors : bool;
  str_type : string;
  int_type : string;
  fixed_type : string;
  date_type : string;
  time_type : string;
  datetime_type : string;
  ip_type : string;
  hostname_type : string;
  filename_type : string;
}.

Definition defaults : options :=
  Options 1000 false false true
          "VARCHAR(1000)" "INTEGER" "DOUBLE" "DATE" "TIME" "TIMESTAMP"
          "VARCHAR(53)" "VARCHAR(255)" "VARCHAR(260)".

(** Lines 92-120: the attributes a successful construction leaves. *)
Definition attributes (module : db_module_t) (tbl : string) (o : options)
  : SQLTarget :=
  Target module tbl (opt_commit o) (opt_create_table o)
         (opt_drop_table o) (opt_ignore_drop_errors o)
         [ (py_str, str_type o);
           (py_int, int_type o);
           (py_float, fixed_type o);
           (py_date, date_type o);
           (py_time, time_type o);
           (py_datetime, datetime_type o);
           (Url, str_type o);
           (IPv4Address, ip_type o);
           (IPv6Address, ip_type o);
           (IPv4Port, ip_type o);
           (IPv6Port, ip_type o);
           (Hostname, hostname_type o);
           (Filename, filename_type o) ]
         None None false None 0.

Definition __init__ (module : db_module_t) (tbl : string) (o : options)
  : result SQLTarget :=
  match paramstyle module with
  | None => Raise (NameError "The database module has no paramstyle global")
  | Some _ =>
      if negb (Error_class module)
      then Raise (NameError "The database module has no Error class")
      else if opt_commit o <? 1
      then Raise (ValueError "commit must be 1 or more")
      else Ok (attributes module tbl o)
  end.

(** ** Statement texts *)

(** The dict literal of lines 189-195 indexed by the paramstyle. *)
Definition placeholder (style : string) (i : nat) (name : string) : result string :=
  if String.eqb style "qmark" then Ok "?"
  else if String.eqb style "numeric" then Ok (":" ++ pct_d i)
  else if String.eqb style "named" then Ok (":" ++ name)
  else if String.eqb style "format" then Ok "%s"
  else if String.eqb style "pyformat" then Ok ("%(" ++ name ++ ")s")
  else Raise (KeyError_str style).

Definition module_paramstyle (module : db_module_t) : result string :=
  match paramstyle module with
  | Some style => Ok style
  | None => Raise (AttributeError "paramstyle")
  end.

(** Lines 187-201: the text assigned to [self._insert]. *)
Definition insert_text (module : db_module_t) (tbl : string) (r : row)
  : result string :=
  rbind (comprehension
           (fun '(i, name) =>
              rbind (module_paramstyle module)
                    (fun style => placeholder style i name))
           (enumerate (field_names r)))
        (fun values =>
           Ok ("INSERT INTO " ++ tbl ++ " VALUES (" ++
               String.concat ", " values ++ ")")).

Definition insert_statement (self : SQLTarget) (r : row) : result string :=
  insert_text (db_module self) (table self) r.

(** Lines 142-154: the text of the CREATE TABLE statement. *)
Definition create_text (types : list (pytype * string)) (tbl : string) (r : row)
  : result string :=
  rbind (comprehension
           (fun '(name, v) =>
              rbind (getitem types (type_ v))
                    (fun type => Ok (name ++ " " ++ type)))
           (combine (field_names r) (items r)))
        (fun fields =>
           Ok ("CREATE TABLE " ++ tbl ++ " (" ++
               String.concat ", " fields ++ ")")).

Definition create_statement (self : SQLTarget) (r : row) : result string :=
  create_text (type_map self) (table self) r.

(** Line 162. *)
Definition drop_text (tbl : string) : string := "DROP TABLE " ++ tbl.

Definition drop_statement (self : SQLTarget) : string := drop_text (table self).

(** Lines 213-215: the cast chosen for one value of the first row. *)
Definition cast_for (ip_cast : cast) (v : value) : option cast :=
  if isinstance v [IPv4Address; IPv6Address] then Some ip_cast
  else if isinstance v [Url] then Some cast_str
  else None.

(** Lines 207-217: the list assigned to [self._row_casts]. *)
Definition row_casts_for (ip_cast : cast) (r : row) : list (option cast) :=
  map (cast_for ip_cast) (items r).

Definition ip_cast_for (ip_column_type : string) : cast :=
  if startswith (upper ip_column_type) "INT" then cast_int else cast_str.

(** [cast(value) if cast else value] (line 239). *)
Definition apply_cast (cv : option cast * value) : result param :=
  match cv with
  | (None, v) => Ok (Unchanged v)
  | (Some cast_str, v) => Ok (StrForm (str_ v))
  | (Some cast_int, v) =>
      match int_ v with
      | Some z => Ok (IntForm z)
      | None => Raise (TypeError "int() argument must be a string or a number")
      end
  end.

(** The truth value of [self._first_row]: neither [None] nor empty. *)
Definition truthy (r : option row) : bool :=
  match r with
  | Some r => negb (Nat.eqb (len r) 0)
  | None => false
  end.

Section Methods.

(** The connection given to the constructor, and the cursors it hands out. *)
Variable connection : driver.

(** A call on the connection. *)
Definition invoke (c : call) : M unit := fun self h =>
  let o := connection h c in
  Run self [Called c o]
      match o with
      | Returned => Ok tt
      | RaisedError msg => Raise (Error msg)
      | RaisedOther msg => Raise (OtherException msg)
      end.

(** A call on [self._cursor], which is [None] outside a session. *)
Definition on_cursor (c : call) : M unit :=
  self <- get ;;
  if _cursor self then invoke c
  else raise (AttributeError "'NoneType' object has no attribute").

(** [try: body / except self.db_module.Error as exc: handler(str(exc))] *)
Definition except_Error {A} (body : M A) (handler : string -> M A) : M A :=
  fun self h =>
  match body self h with
  | Run self1 events1 (Ok a) => Run self1 events1 (Ok a)
  | Run self1 events1 (Raise e) =>
      if Error_class (db_module self1) then
        match e with
        | Error msg =>
            match handler msg self1 (h ++ events1)%list with
            | Run self2 events2 r => Run self2 (events1 ++ events2)%list r
            end
        | _ => Run self1 events1 (Raise e)
        end
      else Run self1 events1 (Raise (AttributeError "Error"))
  end.

(** Lines 122-126. *)
Definition __enter__ : M unit :=
  invoke connection_cursor ;;
  modify (set_cursor true).

(** Lines 128-138. *)
Definition __exit__ : M unit :=
  on_cursor cursor_close ;;
  modify (set_cursor false) ;;
  modify (set_first_row None) ;;
  modify (set_row_casts None) ;;
  modify (set_insert None) ;;
  modify (set_counter 0) ;;
  invoke connection_commit.

(** Lines 140-158. *)
Definition _create_table (r : row) : M unit :=
  self <- get ;;
  sql <- lift (create_statement self r) ;;
  on_cursor (cursor_execute (Some sql) None) ;;
  invoke connection_commit.

(** Lines 160-166. *)
Definition _drop_table : M unit :=
  self <- get ;;
  on_cursor (cursor_execute (Some (drop_statement self)) None) ;;
  invoke connection_commit.

(** Lines 168-217. *)
Definition _generate_statement (r : row) : M unit :=
  self <- get ;;
  sql <- lift (insert_statement self r) ;;
  modify (set_insert (Some sql)) ;;
  ip_column_type <- lift (getitem (type_map self) IPv4Address) ;;
  modify (set_row_casts (Some (row_casts_for (ip_cast_for ip_column_type) r))).

(** Lines 220-235: what [write] does before it binds the parameters. *)
Definition first_row_handling (r : row) : M unit :=
  self <- get ;;
  if truthy (_first_row self) then
    match _first_row self with
    | Some first =>
        if negb (Nat.eqb (len r) (len first))
        then raise (TypeError "Rows must have the same number of elements")
        else ret tt
    | None => ret tt
    end
  else
    modify (set_first_row (Some r)) ;;
    _generate_statement r ;;
    (if drop_table self then
       except_Error _drop_table
         (fun msg =>
            if negb (ignore_drop_errors self) then raise (Error msg) else ret tt)
     else ret tt) ;;
    (if create_table self then _create_table r else ret tt).

(** Lines 238-241. *)
Definition bind_params (r : row) : M (list param) :=
  self <- get ;;
  match _row_casts self with
  | None => raise (TypeError "zip argument #1 must support iteration")
  | Some casts => lift (comprehension apply_cast (combine casts (items r)))
  end.

(** Lines 242-246. *)
Definition execute_insert (r : row) (params : list param) : M unit :=
  except_Error
    (self <- get ;;
     on_cursor (cursor_execute (_insert self) (Some params)))
    (fun msg => emit (Warned (msg ++ " while inserting row " ++ text r))).

(** Lines 247-250. *)
Definition count_and_commit : M unit :=
  modify (fun self => set_counter (_counter self + 1) self) ;;
  self <- get ;;
  if commit self =? 0 then raise ZeroDivisionError
  else if _counter self mod commit self =? 0 then invoke connection_commit
  else ret tt.

(** Lines 219-250. *)
Definition write (r : row) : M unit :=
  first_row_handling r ;;
  params <- bind_params r ;;
  execute_insert r params ;;
  count_and_commit.

(** ** Sessions

    [with target: ...] enters, runs a body of [write] calls and always
    exits.  The caller may catch what a [write] raises and go on, so a
    session is any list of rows offered one after the other. *)

Definition attempt (m : M unit) : M unit := fun self h =>
  match m self h with
  | Run self1 events1 _ => Run self1 events1 (Ok tt)
  end.

Fixpoint writes (rows : list row) : M unit :=
  match rows with
  | [] => ret tt
  | r :: rows' => attempt (write r) ;; writes rows'
  end.

Definition session (rows : list row) : M unit :=
  __enter__ ;;
  writes rows ;;
  __exit__.

End Methods.

(** ** Reading a trace *)

Definition is_commit (e : event) : bool :=
  match e with
  | Called connection_commit _ => true
  | _ => false
  end.

(** A DROP or CREATE that the backend executed: [execute(sql)] returned. *)
Definition is_ddl_done (e : event) : bool :=
  match e with
  | Called (cursor_execute _ None) Returned => true
  | _ => false
  end.

(** An INSERT that was attempted: [execute(sql, params)] returned or raised
    the driver's [Error]. *)
Definition is_attempted (e : event) : bool :=
  match e with
  | Called (cursor_execute _ (Some _)) Returned => true
  | Called (cursor_execute _ (Some _)) (RaisedError _) => true
  | _ => false
  end.

Definition is_closed (e : event) : bool :=
  match e with
  | Called cursor_close Returned => true
  | _ => false
  end.

Definition is_warning (e : event) : bool :=
  match e with
  | Warned _ => true
  | _ => false
  end.

Definition count (p : event -> bool) (tr : list event) : Z :=
  Z.of_nat (length (filter p tr)).

(** The calls of a trace, in order. *)
Fixpoint calls_of (tr : list event) : list call :=
  match tr with
  | [] => []
  | Called c _ :: tr' => c :: calls_of tr'
  | Warned _ :: tr' => calls_of tr'
  end.

(** The statements handed to [cursor.execute], in order. *)
Fixpoint executed (tr : list event) : list string :=
  match tr with
  | [] => []
  | Called (cursor_execute (Some sql) _) _ :: tr' => sql :: executed tr'
  | _ :: tr' => executed tr'
  end.

(** The attributes [__init__] fixes for the life of the object. *)
Definition same_config (a b : SQLTarget) : Prop :=
  db_module a = db_module b /\ table a = table b /\ commit a = commit b /\
  create_table a = create_table b /\ drop_table a = drop_table b /\
  ignore_drop_errors a = ignore_drop_errors b /\ type_map a = type_map b.

(** The statements the first-row handling may execute, in the order of lines
    227-235: DROP, then CREATE. *)
Definition ddl_statements (self : SQLTarget) (r : row) : list string :=
  ((if drop_table self then [drop_statement self] else []) ++
   (if create_table self
    then match create_statement self r with Ok sql => [sql] | Raise _ => [] end
    else []))%list.


(** A statement without parameters, or a commit. *)
Definition is_ddl_event (e : event) : bool :=
  match e with
  | Called (cursor_execute _ None) _ => true
  | Called connection_commit _ => true
  | _ => false
  end.

(** The placeholder table of the specification, for comparison with
    [placeholder]: numbered placeholders count from one. *)
Definition spec_placeholder (style : string) (i : nat) (name : string)
  : option string :=
  if String.eqb style "qmark" then Some "?"
  else if String.eqb style "numeric" then Some (":" ++ pct_d (i + 1)%nat)
  else if String.eqb style "named" then Some (":" ++ name)
  else if String.eqb style "format" then Some "%s"
  else if String.eqb style "pyformat" then Some ("%(" ++ name ++ ")s")
  else None.

Definition supported (style : string) : bool :=
  existsb (String.eqb style) ["qmark"; "numeric"; "named"; "format"; "pyformat"].

(** What [placeholder] renders for a supported style. *)
Definition rendered (style : string) (field : nat * string) : string :=
  match placeholder style (fst field) (snd field) with
  | Ok p => p
  | Raise _ => EmptyString
  end.


(** ** Sample modules, rows, writers and drivers *)

Module Sample.

Definition module (style : string) : db_module_t := DbModule (Some style) true.

Definition text_a : value := Value py_str [] None "a".
Definition none : value := Value (py_other "NoneType") [] None "None".
Definition localhost : value :=
  Value IPv4Address [py_other "object"] (Some 2130706433) "127.0.0.1".
Definition homepage : value :=
  Value Url [py_other "tuple"; py_other "object"] None "http://localhost/".

(** [Row(x='a', y=IPv4Address('127.0.0.1'))], a namedtuple. *)
Definition row_xy : row :=
  Row (Some ["x"; "y"]) [text_a; localhost]
      "Row(x='a', y=IPv4Address('127.0.0.1'))".

(** [('a', IPv4Address('127.0.0.1'), Url(...))], a plain tuple. *)
Definition row_3 : row :=
  Row None [text_a; localhost; homepage] "('a', IPv4Address('127.0.0.1'), Url())".

(** [()] *)
Definition row_empty : row := Row None [] "()".

(** [(None,)] *)
Definition row_none : row := Row None [none] "(None,)".

(** A writer as constructed, and inside its [with] block. *)
Definition writer (style : string) (o : options) : SQLTarget :=
  attributes (module style) "t" o.

Definition entered (style : string) (o : options) : SQLTarget :=
  set_cursor true (writer style o).

Definition with_tables : options :=
  Options 1000 true true true
          "VARCHAR(1000)" "INTEGER" "DOUBLE" "DATE" "TIME" "TIMESTAMP"
          "VARCHAR(53)" "VARCHAR(255)" "VARCHAR(260)".

Definition create_only : options :=
  Options 1000 true false true
          "VARCHAR(1000)" "INTEGER" "DOUBLE" "DATE" "TIME" "TIMESTAMP"
          "VARCHAR(53)" "VARCHAR(255)" "VARCHAR(260)".


Definition every_row : options :=
  Options 1 false false true
          "VARCHAR(1000)" "INTEGER" "DOUBLE" "DATE" "TIME" "TIMESTAMP"
          "VARCHAR(53)" "VARCHAR(255)" "VARCHAR(260)".

Definition in_pairs : options :=
  Options 2 false false true
          "VARCHAR(1000)" "INTEGER" "DOUBLE" "DATE" "TIME" "TIMESTAMP"
          "VARCHAR(53)" "VARCHAR(255)" "VARCHAR(260)".


(** A backend that accepts everything. *)
Definition accepting : driver := fun _ _ => Returned.

(** A backend without the table: every statement without parameters fails. *)
Definition no_table : driver := fun _ c =>
  match c with
  | cursor_execute _ None => RaisedError "no such table: t"
  | _ => Returned
  end.

(** A backend that rejects every INSERT and has lost the transaction. *)
Definition rejecting : driver := fun _ c =>
  match c with
  | cursor_execute _ (Some _) => RaisedError "constraint failed"
  | connection_commit => RaisedError "cannot commit"
  | _ => Returned
  end.

(** A backend that rejects every INSERT and nothing else. *)
Definition rejecting_rows : driver := fun _ c =>
  match c with
  | cursor_execute _ (Some _) => RaisedError "constraint failed"
  | _ => Returned
  end.

(** A connection that has gone away: the cursor cannot be closed. *)
Definition gone : driver := fun _ c =>
  match c with
  | cursor_close => RaisedError "connection already closed"
  | _ => Returned
  end.

(** A driver interrupted in the middle of every INSERT: what it raises is
    not an instance of its [Error] class. *)
Definition interrupted : driver := fun _ c =>
  match c with
  | cursor_execute _ (Some _) => RaisedOther "KeyboardInterrupt"
  | _ => Returned
  end.

(** A backend on which nothing can be committed. *)
Definition read_only : driver := fun _ c =>
  match c with
  | connection_commit => RaisedError "cannot commit"
  | _ => Returned
  end.

(** A connection that hands out no cursor. *)
Definition refusing : driver := fun _ c =>
  match c with
  | connection_cursor => RaisedError "too many connections"
  | _ => Returned
  end.

Definition drop_only : options :=
  Options 1000 false true true
          "VARCHAR(1000)" "INTEGER" "DOUBLE" "DATE" "TIME" "TIMESTAMP"
          "VARCHAR(53)" "VARCHAR(255)" "VARCHAR(260)".

End Sample.

(** ** Shapes of runs *)

(** What follows the first-row handling: bind, execute, count (lines
    237-250).  Either the parameters cannot be bound, or there is no cursor,
    or the INSERT raises something that is not the driver's [Error], or it
    returns, or it raises the driver's [Error]; in the last two cases lines
    247-250 run. *)
Inductive insert_phase (conn : driver) (r : row) (s : SQLTarget)
  (h : list event) (out : run unit) : Prop :=
| not_bound (e : exn) :
    bind_params r s h = Run s [] (Raise e) ->
    out = Run s [] (Raise e) ->
    insert_phase conn r s h out
| no_cursor (params : list param) (e : exn) :
    bind_params r s h = Run s [] (Ok params) ->
    _cursor s = false ->
    out = Run s [] (Raise e) ->
    insert_phase conn r s h out
| aborted (params : list param) (msg : string) :
    bind_params r s h = Run s [] (Ok params) ->
    _cursor s = true ->
    conn h (cursor_execute (_insert s) (Some params)) = RaisedOther msg ->
    out = Run s [Called (cursor_execute (_insert s) (Some params))
                        (RaisedOther msg)]
              (Raise (OtherException msg)) ->
    insert_phase conn r s h out
| accepted (params : list param) (ev : list event) :
    bind_params r s h = Run s [] (Ok params) ->
    _cursor s = true ->
    conn h (cursor_execute (_insert s) (Some params)) = Returned ->
    ev = [Called (cursor_execute (_insert s) (Some params)) Returned] ->
    out = Run (self_of (count_and_commit conn s (h ++ ev)%list))
              (ev ++ events_of (count_and_commit conn s (h ++ ev)%list))%list
              (result_of (count_and_commit conn s (h ++ ev)%list)) ->
    insert_phase conn r s h out
| rejected (params : list param) (msg : string) (ev : list event) :
    bind_params r s h = Run s [] (Ok params) ->
    _cursor s = true ->
    conn h (cursor_execute (_insert s) (Some params)) = RaisedError msg ->
    ev = [Called (cursor_execute (_insert s) (Some params)) (RaisedError msg);
          Warned (msg ++ " while inserting row " ++ text r)%string] ->
    out = Run (self_of (count_and_commit conn s (h ++ ev)%list))
              (ev ++ events_of (count_and_commit conn s (h ++ ev)%list))%list
              (result_of (count_and_commit conn s (h ++ ev)%list)) ->
    insert_phase conn r s h out.

(** What lines 224-235 leave behind when [self._first_row] is not set. *)
Record first_row_facts (conn : driver) (r : row) (s : SQLTarget)
  (h : list event) (out : run unit) : Prop := {
  frf_config : same_config s (self_of out);
  frf_counter : _counter (self_of out) = _counter s;
  frf_cursor : _cursor (self_of out) = _cursor s;
  frf_first_row : _first_row (self_of out) = Some r;
  frf_events : forallb is_ddl_event (events_of out) = true;
  frf_balance :
    count is_commit (events_of out) = count is_ddl_done (events_of out);
  frf_plan :
    events_of out <> [] \/ result_of out = Ok tt ->
    exists sql ip_column_type,
      insert_statement s r = Ok sql /\
      getitem (type_map s) IPv4Address = Ok ip_column_type /\
      _insert (self_of out) = Some sql /\
      _row_casts (self_of out) =
        Some (row_casts_for (ip_cast_for ip_column_type) r);
  frf_no_plan :
    forall e, insert_statement s r = Raise e ->
              out = Run (set_first_row (Some r) s) [] (Raise e);
  frf_prefix :
    exists k, executed (events_of out) = firstn k (ddl_statements s r);
  frf_all :
    result_of out = Ok tt -> executed (events_of out) = ddl_statements s r;
  frf_create :
    create_table s = true ->
    forall e, create_statement s r = Raise e ->
              exists e', result_of out = Raise e';
  frf_drop_fatal :
    forall msg,
      Error_class (db_module s) = true ->
      drop_table s = true ->
      conn h (cursor_execute (Some (drop_statement s)) None) = RaisedError msg ->
      events_of out <> [] ->
      ignore_drop_errors s = false ->
      out = Run (self_of out)
                [Called (cursor_execute (Some (drop_statement s)) None)
                        (RaisedError msg)]
                (Raise (Error msg));
  frf_drop_ignored :
    forall msg sql,
      Error_class (db_module s) = true ->
      drop_table s = true ->
      conn h (cursor_execute (Some (drop_statement s)) None) = RaisedError msg ->
      events_of out <> [] ->
      ignore_drop_errors s = true ->
      create_table s = true ->
      create_statement s r = Ok sql ->
      executed (events_of out) = [drop_statement s; sql];
}.

(** ** Further readings of a trace *)

(** [connection.cursor()], whatever it did. *)
Definition is_cursor_call (e : event) : bool :=
  match e with
  | Called connection_cursor _ => true
  | _ => false
  end.

(** [connection.cursor()] that handed out a cursor. *)
Definition is_opened (e : event) : bool :=
  match e with
  | Called connection_cursor Returned => true
  | _ => false
  end.

(** [cursor.close()], whatever it did. *)
Definition is_close_call (e : event) : bool :=
  match e with
  | Called cursor_close _ => true
  | _ => false
  end.

(** An INSERT that raised the driver's [Error]. *)
Definition is_rejected (e : event) : bool :=
  match e with
  | Called (cursor_execute _ (Some _)) (RaisedError _) => true
  | _ => false
  end.

(** [cursor.execute(sql)] without parameters (a DROP or a CREATE), whatever
    it did. *)
Definition is_plain_execute (e : event) : bool :=
  match e with
  | Called (cursor_execute _ None) _ => true
  | _ => false
  end.

(** The first argument of every [cursor.execute(sql, params)], in order. *)
Fixpoint inserted (tr : list event) : list (option string) :=
  match tr with
  | [] => []
  | Called (cursor_execute sql (Some _)) _ :: tr' => sql :: inserted tr'
  | _ :: tr' => inserted tr'
  end.

(** The keys of the dict of lines 101-115. *)
Definition known_classes : list pytype :=
  [ py_str; py_int; py_float; py_date; py_time; py_datetime; Url;
    IPv4Address; IPv6Address; IPv4Port; IPv6Port; Hostname; Filename ].

(** What lines 247-250 may add to the trace: nothing, or one commit. *)
Definition commit_trace (tr : list event) : Prop :=
  tr = [] \/ exists o, tr = [Called connection_commit o].

(** What lines 242-250 may add to the trace for the row [r] and the INSERT
    text [q]. *)
Inductive insert_trace (q : option string) (r : row) : list event -> Prop :=
| nothing_executed : insert_trace q r []
| insert_aborted (params : list param) (msg : string) :
    insert_trace q r
      [Called (cursor_execute q (Some params)) (RaisedOther msg)]
| insert_accepted (params : list param) (tr : list event) :
    commit_trace tr ->
    insert_trace q r (Called (cursor_execute q (Some params)) Returned :: tr)
| insert_rejected (params : list param) (msg : string) (tr : list event) :
    commit_trace tr ->
    insert_trace q r
      (Called (cursor_execute q (Some params)) (RaisedError msg)
       :: Warned (msg ++ " while inserting row " ++ text r)%string
       :: tr).

(** Every statement without parameters that returned is followed at once by
    a call of [connection.commit()]. *)
Fixpoint commits_follow (tr : list event) : bool :=
  match tr with
  | [] => true
  | Called (cursor_execute _ None) Returned :: rest =>
      match rest with
      | Called connection_commit _ :: _ => commits_follow rest
      | _ => false
      end
  | _ :: rest => commits_follow rest
  end.

(** More of what lines 224-235 leave behind when [self._first_row] is not
    set. *)
Record first_row_more (r : row) (s : SQLTarget) (out : run unit) : Prop := {
  frm_commits : commits_follow (events_of out) = true;
  frm_no_cursor : _cursor s = false -> events_of out = [];
  frm_result : result_of out <> Raise ZeroDivisionError;
  frm_create :
    result_of out = Ok tt ->
    create_table s = true ->
    exists sql,
      create_statement s r = Ok sql /\
      firstn 2 (rev (events_of out)) =
        [Called connection_commit Returned;
         Called (cursor_execute (Some sql) None) Returned];
}.

(** What a call on the cursor or the connection may end in: the driver's
    [Error], something else the driver raises, or the [AttributeError] of a
    missing cursor or a missing [Error] class. *)
Definition raised_by_a_call (e : exn) : Prop :=
  match e with
  | AttributeError _ | Error _ | OtherException _ => True
  | _ => False
  end.

(** What lines 237-250 may raise besides: the [TypeError] of line 239 and the
    [ZeroDivisionError] of line 248. *)
Definition raised_after_first_row (e : exn) : Prop :=
  match e with
  | TypeError _ | ZeroDivisionError => True
  | _ => raised_by_a_call e
  end.

(** The DROP of line 164 as the driver answers it first in a call. *)
Definition drop_event (conn : driver) (s : SQLTarget) (h : list event) : event :=
  Called (cursor_execute (Some (drop_statement s)) None)
         (conn h (cursor_execute (Some (drop_statement s)) None)).

(** How far lines 224-235 get when [self._first_row] is not set: the plan
    whenever it can be built, what the call may raise, when it returns, and
    the DROP as its first call. *)
Record first_row_progress (conn : driver) (r : row) (s : SQLTarget)
  (h : list event) (out : run unit) : Prop := {
  frp_plan :
    forall sql ip_column_type,
      insert_statement s r = Ok sql ->
      getitem (type_map s) IPv4Address = Ok ip_column_type ->
      _insert (self_of out) = Some sql /\
      _row_casts (self_of out) =
        Some (row_casts_for (ip_cast_for ip_column_type) r);
  frp_no_map :
    forall sql e,
      insert_statement s r = Ok sql ->
      getitem (type_map s) IPv4Address = Raise e ->
      out = Run (set_insert (Some sql) (set_first_row (Some r) s)) []
                (Raise e);
  frp_raises :
    forall e,
      result_of out = Raise e ->
      insert_statement s r = Raise e \/
      getitem (type_map s) IPv4Address = Raise e \/
      (create_table s = true /\ create_statement s r = Raise e) \/
      raised_by_a_call e;
  frp_returns :
    forall sql ip_column_type,
      insert_statement s r = Ok sql ->
      getitem (type_map s) IPv4Address = Ok ip_column_type ->
      _cursor s = true ->
      (create_table s = true -> exists text, create_statement s r = Ok text) ->
      (forall c o, In (Called c o) (events_of out) -> o = Returned) ->
      result_of out = Ok tt;
  frp_drop_first :
    forall sql ip_column_type,
      insert_statement s r = Ok sql ->
      getitem (type_map s) IPv4Address = Ok ip_column_type ->
      _cursor s = true ->
      drop_table s = true ->
      hd_error (events_of out) = Some (drop_event conn s h);
}.

(** The same writer with another dict of column types. *)
Definition with_type_map (types : list (pytype * string)) (s : SQLTarget)
  : SQLTarget :=
  Target (db_module s) (table s) (commit s) (create_table s) (drop_table s)
         (ignore_drop_errors s) types
         (_first_row s) (_row_casts s) (_cursor s) (_insert s) (_counter s).

(** A run seen from that writer. *)
Definition as_with_type_map {A} (types : list (pytype * string)) (out : run A)
  : run A :=
  Run (with_type_map types (self_of out)) (events_of out) (result_of out).

(** * Properties *)

Local Open Scope list_scope.

(** ** The monad *)

Lemma bind_ok {A B} (m : M A) (f : A -> M B) self h self1 events1 a :
  m self h = Run self1 events1 (Ok a) ->
  bind m f self h =
  Run (self_of (f a self1 (h ++ events1)%list))
      (events1 ++ events_of (f a self1 (h ++ events1)%list))%list
      (result_of (f a self1 (h ++ events1)%list)).
Proof.
  intros H. unfold bind. rewrite H.
  destruct (f a self1 (h ++ events1)%list). reflexivity.
Qed.

Lemma bind_raise {A B} (m : M A) (f : A -> M B) self h self1 events1 e :
  m self h = Run self1 events1 (Raise e) ->
  bind m f self h = Run self1 events1 (Raise e).
Proof. intros H. unfold bind. rewrite H. reflexivity. Qed.

Lemma count_app p (a b : list event) :
  count p (a ++ b)%list = count p a + count p b.
Proof. unfold count. rewrite filter_app, length_app. lia. Qed.

Lemma same_config_refl s : same_config s s.
Proof. unfold same_config. tauto. Qed.

Lemma same_config_trans a b c :
  same_config a b -> same_config b c -> same_config a c.
Proof. unfold same_config. intuition congruence. Qed.

(** ** Closing a session *)

(** C10 (amended): closing a session calls [cursor.close()] first and exactly
    once.  When that call returns, the writer forgets the cursor, the first
    row, the plan and the counter and then calls [connection.commit()]
    exactly once, whatever the state of the session was and whether or not
    that commit succeeds; when the close itself raises, nothing else is
    called and no commit is issued. *)
Theorem exit_closes_then_commits (conn : driver) (s : SQLTarget) (h : list event) :
  _cursor s = true ->
  let out := __exit__ conn s h in
  match conn h cursor_close with
  | Returned =>
      calls_of (events_of out) = [cursor_close; connection_commit] /\
      _cursor (self_of out) = false /\
      _first_row (self_of out) = None /\
      _row_casts (self_of out) = None /\
      _insert (self_of out) = None /\
      _counter (self_of out) = 0
  | _ =>
      calls_of (events_of out) = [cursor_close] /\
      self_of out = s /\
      exists e, result_of out = Raise e
  end.
Proof.
  intros Hcur out. subst out.
  unfold __exit__, on_cursor, bind, get, modify, invoke, raise. simpl.
  rewrite Hcur. simpl. rewrite !app_nil_r.
  destruct (conn h cursor_close) eqn:Hclose; simpl.
  - repeat split; reflexivity.
  - repeat split; eauto.
  - repeat split; eauto.
Qed.

Lemma exit_closes_then_commits_witness :
  calls_of (events_of (__exit__ Sample.rejecting
                         (Sample.entered "qmark" defaults) [])) =
    [cursor_close; connection_commit] /\
  _cursor (self_of (__exit__ Sample.rejecting
                      (Sample.entered "qmark" defaults) [])) = false.
Proof.
  pose proof (exit_closes_then_commits Sample.rejecting
                (Sample.entered "qmark" defaults) [] eq_refl) as H.
  simpl in H. destruct H as (Hcalls & Hcur & _).
  split; [exact Hcalls | exact Hcur].
Defined.

(** C10 as stated fails when the cursor cannot be closed: the session ends
    without any commit. *)
Lemma close_without_commit :
  calls_of (events_of (session Sample.gone [Sample.row_xy]
                         (Sample.writer "qmark" defaults) [])) =
    [ connection_cursor;
      cursor_execute (Some "INSERT INTO t VALUES (?, ?)")
                     (Some [Unchanged Sample.text_a; StrForm "127.0.0.1"]);
      cursor_close ] /\
  count is_commit (events_of (session Sample.gone [Sample.row_xy]
                                (Sample.writer "qmark" defaults) [])) = 0.
Proof. split; reflexivity. Qed.

(** ** Computing with the methods *)

Arguments insert_text : simpl never.
Arguments create_text : simpl never.
Arguments drop_text : simpl never.
Arguments getitem : simpl never.
Arguments row_casts_for : simpl never.
Arguments ip_cast_for : simpl never.
Arguments comprehension : simpl never.
Arguments truthy : simpl never.
Arguments String.append : simpl never.
Arguments Z.modulo : simpl never.
Arguments Z.add : simpl never.

Ltac unfold_methods :=
  unfold write, first_row_handling, bind_params, execute_insert,
    count_and_commit, _generate_statement, _drop_table, _create_table,
    __enter__, __exit__, on_cursor, except_Error, bind, get, modify, lift,
    emit, invoke, raise, ret.

Ltac tidy := simpl; rewrite ?app_nil_r; simpl.

(** Lines 247-250 always add one to the counter, and commit on a multiple. *)
Lemma count_and_commit_run (conn : driver) (s : SQLTarget) (h : list event) :
  count_and_commit conn s h =
  let s' := set_counter (_counter s + 1) s in
  if commit s =? 0 then Run s' [] (Raise ZeroDivisionError)
  else if (_counter s + 1) mod commit s =? 0
  then Run s' [Called connection_commit (conn h connection_commit)]
           match conn h connection_commit with
           | Returned => Ok tt
           | RaisedError msg => Raise (Error msg)
           | RaisedOther msg => Raise (OtherException msg)
           end
  else Run s' [] (Ok tt).
Proof.
  unfold_methods. tidy.
  destruct (commit s =? 0); [reflexivity|].
  destruct ((_counter s + 1) mod commit s =? 0); reflexivity.
Qed.

Lemma count_and_commit_self (conn : driver) (s : SQLTarget) (h : list event) :
  self_of (count_and_commit conn s h) = set_counter (_counter s + 1) s.
Proof.
  rewrite count_and_commit_run. simpl.
  destruct (commit s =? 0); [reflexivity|].
  destruct ((_counter s + 1) mod commit s =? 0); reflexivity.
Qed.

Lemma bind_params_run (r : row) (s : SQLTarget) (h : list event) :
  bind_params r s h =
  Run s []
      match _row_casts s with
      | None => Raise (TypeError "zip argument #1 must support iteration")
      | Some casts => comprehension apply_cast (combine casts (items r))
      end.
Proof.
  unfold bind_params, bind, get, lift, raise.
  destruct (_row_casts s); reflexivity.
Qed.

Lemma insert_phase_cases (conn : driver) (r : row) (s : SQLTarget)
  (h : list event) :
  Error_class (db_module s) = true ->
  insert_phase conn r s h
    ((params <- bind_params r ;;
      execute_insert conn r params ;;
      count_and_commit conn) s h).
Proof.
  intros Herr.
  pose proof (bind_params_run r s h) as Hbind.
  unfold bind at 1.
  destruct (bind_params r s h) as [s0 ev0 [params|e]] eqn:Hrun;
    inversion Hbind as [[Hs Hev Hres]]; subst s0 ev0; clear Hbind.
  2:{ eapply not_bound; [exact Hrun|reflexivity]. }
  unfold execute_insert, except_Error, on_cursor, bind, get, emit, invoke,
    raise.
  tidy.
  destruct (_cursor s) eqn:Hcur.
  2:{ rewrite Herr. eapply no_cursor; [exact Hrun|exact Hcur|reflexivity]. }
  tidy.
  destruct (conn h (cursor_execute (_insert s) (Some params)))
    as [|msg|msg] eqn:Ho.
  - destruct (count_and_commit conn s _) eqn:E.
    eapply accepted with (params := params);
      [exact Hrun|exact Hcur|exact Ho|reflexivity|].
    rewrite E. reflexivity.
  - rewrite Herr. tidy.
    destruct (count_and_commit conn s _) eqn:E.
    eapply rejected with (params := params) (msg := msg);
      [exact Hrun|exact Hcur|exact Ho|reflexivity|].
    rewrite E. reflexivity.
  - rewrite Herr. eapply aborted; [exact Hrun|exact Hcur|exact Ho|reflexivity].
Qed.

Ltac split_run :=
  match goal with
  | |- context [match ?c ?h ?k with Returned => _ | _ => _ end] =>
      destruct (c h k) eqn:?
  | |- context [match insert_text ?m ?t ?r with _ => _ end] =>
      destruct (insert_text m t r) eqn:?
  | |- context [match create_text ?m ?t ?r with _ => _ end] =>
      destruct (create_text m t r) eqn:?
  | |- context [match getitem ?d ?k with _ => _ end] =>
      destruct (getitem d k) eqn:?
  | |- context [if ?b then _ else _] => destruct b eqn:?
  end; tidy.

Ltac pick_prefix :=
  first [ exists 0%nat; reflexivity
        | exists 1%nat; reflexivity
        | exists 2%nat; reflexivity ].

Ltac first_row_leaf :=
  first
    [ apply same_config_refl
    | reflexivity
    | pick_prefix
    | congruence
    | intros [H|H];
      [ exfalso; apply H; reflexivity | discriminate H ]
    | intros _; eexists _, _; repeat split; reflexivity
    | intros; eexists; reflexivity
    | intros; congruence
    | intros; discriminate
    | unfold same_config; simpl; tauto
    | intros;
      match goal with
      | H : negb ?b = _ |- _ => destruct b; simpl in *; congruence
      end ].

Lemma first_row_handling_fresh (conn : driver) (r : row) (s : SQLTarget)
  (h : list event) :
  truthy (_first_row s) = false ->
  first_row_facts conn r s h (first_row_handling conn r s h).
Proof.
  intros Hfresh.
  unfold first_row_handling.
  unfold _generate_statement, _drop_table, _create_table, on_cursor,
    except_Error, bind, get, modify, lift, emit, invoke, raise, ret,
    insert_statement, create_statement, drop_statement.
  rewrite Hfresh. tidy.
  repeat split_run.
  all: constructor;
    unfold ddl_statements, insert_statement, create_statement, drop_statement;
    tidy.
  all: repeat match goal with
              | H : _ = _ |- _ => rewrite H
              end.
  all: first_row_leaf.
Qed.

(** With a first row on record, lines 220-222 only compare widths. *)
Lemma first_row_handling_fixed (conn : driver) (r first : row) (s : SQLTarget)
  (h : list event) :
  _first_row s = Some first ->
  truthy (_first_row s) = true ->
  first_row_handling conn r s h =
  if negb (Nat.eqb (len r) (len first))
  then Run s [] (Raise (TypeError "Rows must have the same number of elements"))
  else Run s [] (Ok tt).
Proof.
  intros Hfirst Htruthy.
  unfold first_row_handling, bind, get, raise, ret.
  rewrite Htruthy, Hfirst. tidy.
  destruct (negb (Nat.eqb (len r) (len first))); reflexivity.
Qed.

Lemma truthy_some (o : option row) :
  truthy o = true -> exists first, o = Some first /\ items first <> [].
Proof.
  destruct o as [first|]; [|discriminate].
  unfold truthy, len. intros H. exists first. split; [reflexivity|].
  destruct (items first); [discriminate|congruence].
Qed.

Lemma truthy_nonempty (first : row) :
  items first <> [] -> truthy (Some first) = true.
Proof. unfold truthy, len. destruct (items first); [congruence|reflexivity]. Qed.

(** Lines 220-235 never touch the counter or the cursor, and call nothing but
    statements without parameters, each successful one followed by a commit. *)
Lemma first_row_handling_keeps (conn : driver) (r : row) (s : SQLTarget)
  (h : list event) :
  let out := first_row_handling conn r s h in
  same_config s (self_of out) /\
  _counter (self_of out) = _counter s /\
  _cursor (self_of out) = _cursor s /\
  forallb is_ddl_event (events_of out) = true /\
  count is_commit (events_of out) = count is_ddl_done (events_of out).
Proof.
  intros out. subst out.
  destruct (truthy (_first_row s)) eqn:Htruthy.
  - destruct (truthy_some _ Htruthy) as (first & Hfirst & _).
    rewrite (first_row_handling_fixed conn r first s h Hfirst Htruthy).
    destruct (negb (Nat.eqb (len r) (len first))); simpl;
      repeat split; reflexivity.
  - destruct (first_row_handling_fresh conn r s h Htruthy).
    repeat split; assumption || apply frf_config0.
Qed.

Lemma ddl_events_not_insert (tr : list event) sql params o :
  forallb is_ddl_event tr = true ->
  ~ In (Called (cursor_execute sql (Some params)) o) tr.
Proof.
  intros Hall Hin. rewrite forallb_forall in Hall.
  apply Hall in Hin. discriminate Hin.
Qed.

Lemma ddl_events_counts (tr : list event) :
  forallb is_ddl_event tr = true ->
  count is_attempted tr = 0 /\ count is_closed tr = 0 /\
  filter is_warning tr = [].
Proof.
  unfold count. induction tr as [|e tr IH]; simpl; [auto|].
  intros H. apply andb_prop in H. destruct H as [He Htr].
  destruct (IH Htr) as (Ha & Hc & Hw).
  destruct e as [c o|msg]; [|discriminate].
  destruct c as [| |sql [params|]|]; try discriminate; simpl;
    destruct o; simpl; auto.
Qed.

(** A [write] is the first-row handling followed, when that returns, by the
    binding, the INSERT and the count. *)
Lemma write_cases (conn : driver) (r : row) (s : SQLTarget) (h : list event) :
  Error_class (db_module s) = true ->
  let f := first_row_handling conn r s h in
  (exists e, result_of f = Raise e /\ write conn r s h = f) \/
  (result_of f = Ok tt /\
   exists t,
     insert_phase conn r (self_of f) (h ++ events_of f) t /\
     write conn r s h =
       Run (self_of t) (events_of f ++ events_of t) (result_of t)).
Proof.
  intros Herr f.
  pose proof (first_row_handling_keeps conn r s h) as (Hcfg & _).
  fold f in Hcfg.
  assert (Herr' : Error_class (db_module (self_of f)) = true).
  { destruct Hcfg as (Hm & _). rewrite <- Hm. exact Herr. }
  pose proof (insert_phase_cases conn r (self_of f) (h ++ events_of f) Herr')
    as Hphase.
  unfold write.
  destruct f as [s1 ev1 [[]|e]] eqn:Hf; subst f; simpl in *.
  - right. split; [reflexivity|].
    eexists. split; [exact Hphase|].
    exact (bind_ok (first_row_handling conn r)
             (fun _ => params <- bind_params r ;;
                       execute_insert conn r params ;;
                       count_and_commit conn)
             s h s1 ev1 tt Hf).
  - left. exists e. split; [reflexivity|].
    exact (bind_raise (first_row_handling conn r)
             (fun _ => params <- bind_params r ;;
                       execute_insert conn r params ;;
                       count_and_commit conn)
             s h s1 ev1 e Hf).
Qed.

(** ** The row counter *)

Lemma count_and_commit_events (conn : driver) (s : SQLTarget)
  (h : list event) :
  events_of (count_and_commit conn s h) = [] \/
  exists o, events_of (count_and_commit conn s h) =
            [Called connection_commit o].
Proof.
  rewrite count_and_commit_run. simpl.
  destruct (commit s =? 0); [left; reflexivity|].
  destruct ((_counter s + 1) mod commit s =? 0);
    [right; eexists; reflexivity|left; reflexivity].
Qed.

Lemma not_in_count_and_commit (conn : driver) (s : SQLTarget) (h : list event)
  sql params o :
  ~ In (Called (cursor_execute sql params) o)
       (events_of (count_and_commit conn s h)).
Proof.
  destruct (count_and_commit_events conn s h) as [He|(o' & He)]; rewrite He.
  - intros [].
  - intros [Heq|[]]. discriminate Heq.
Qed.

(** The INSERT events of the insert phase: at most one, and what followed. *)
Lemma insert_phase_insert (conn : driver) (r : row) (s : SQLTarget)
  (h : list event) (t : run unit) sql params o :
  insert_phase conn r s h t ->
  In (Called (cursor_execute sql (Some params)) o) (events_of t) ->
  sql = _insert s /\
  bind_params r s h = Run s [] (Ok params) /\
  _cursor s = true /\
  conn h (cursor_execute (_insert s) (Some params)) = o /\
  match o with
  | RaisedOther msg =>
      t = Run s [Called (cursor_execute (_insert s) (Some params)) o]
              (Raise (OtherException msg))
  | _ =>
      let ev := Called (cursor_execute (_insert s) (Some params)) o ::
                match o with
                | RaisedError msg =>
                    [Warned (msg ++ " while inserting row " ++ text r)%string]
                | _ => []
                end in
      t = Run (self_of (count_and_commit conn s (h ++ ev)))
              (ev ++ events_of (count_and_commit conn s (h ++ ev)))
              (result_of (count_and_commit conn s (h ++ ev)))
  end.
Proof.
  intros Hphase Hin.
  destruct Hphase as [e Hb Ht|ps e Hb Hc Ht|ps msg Hb Hc Ho Ht
                     |ps ev Hb Hc Ho Hev Ht|ps msg ev Hb Hc Ho Hev Ht];
    subst t; simpl in Hin.
  - contradiction.
  - contradiction.
  - destruct Hin as [Heq|[]]. inversion Heq; subst.
    repeat split; assumption || reflexivity.
  - subst ev. destruct Hin as [Heq|Hin].
    + inversion Heq; subst. repeat split; assumption || reflexivity.
    + exfalso. exact (not_in_count_and_commit _ _ _ _ _ _ Hin).
  - subst ev. destruct Hin as [Heq|[Heq|Hin]].
    + inversion Heq; subst. repeat split; assumption || reflexivity.
    + discriminate Heq.
    + exfalso. exact (not_in_count_and_commit _ _ _ _ _ _ Hin).
Qed.

Lemma insert_phase_counts (conn : driver) (r : row) (s : SQLTarget)
  (h : list event) (t : run unit) sql params o :
  insert_phase conn r s h t ->
  In (Called (cursor_execute sql (Some params)) o) (events_of t) ->
  o = Returned \/ (exists msg, o = RaisedError msg) ->
  _counter (self_of t) = _counter s + 1.
Proof.
  intros Hphase Hin Ho.
  destruct (insert_phase_insert _ _ _ _ _ _ _ _ Hphase Hin)
    as (_ & _ & _ & _ & Ht).
  destruct Ho as [Ho|[msg Ho]]; subst o; simpl in Ht; rewrite Ht; simpl;
    rewrite count_and_commit_self; reflexivity.
Qed.

(** C2: whenever a call to [write] gets as far as executing its INSERT, and
    the backend either accepts it or rejects it with the driver's error, the
    row counter is one more than before the call; this holds whether or not
    the call then commits, and whether or not that commit succeeds. *)
Theorem counter_counts_every_attempt (conn : driver) (r : row) (s : SQLTarget)
  (h : list event) (sql : option string) (params : list param) (o : outcome) :
  Error_class (db_module s) = true ->
  In (Called (cursor_execute sql (Some params)) o)
     (events_of (write conn r s h)) ->
  o = Returned \/ (exists msg, o = RaisedError msg) ->
  _counter (self_of (write conn r s h)) = _counter s + 1.
Proof.
  intros Herr Hin Ho.
  pose proof (first_row_handling_keeps conn r s h) as (_ & Hcnt & _ & Hddl & _).
  destruct (write_cases conn r s h Herr) as [(e & _ & Hw)|(_ & t & Hphase & Hw)];
    rewrite Hw in *; simpl in *.
  - exfalso. exact (ddl_events_not_insert _ _ _ _ Hddl Hin).
  - apply in_app_or in Hin. destruct Hin as [Hin|Hin].
    + exfalso. exact (ddl_events_not_insert _ _ _ _ Hddl Hin).
    + rewrite (insert_phase_counts _ _ _ _ _ _ _ _ Hphase Hin Ho).
      rewrite Hcnt. reflexivity.
Qed.

Lemma counter_counts_every_attempt_witness :
  _counter (self_of (write Sample.rejecting_rows Sample.row_xy
                       (Sample.entered "qmark" defaults) [])) = 0 + 1.
Proof.
  apply (counter_counts_every_attempt Sample.rejecting_rows Sample.row_xy
           (Sample.entered "qmark" defaults) []
           (Some "INSERT INTO t VALUES (?, ?)")
           [Unchanged Sample.text_a; StrForm "127.0.0.1"]
           (RaisedError "constraint failed")).
  - reflexivity.
  - vm_compute. left. reflexivity.
  - right. exists "constraint failed"%string. reflexivity.
Defined.

(** An INSERT that raises anything but the driver's error is not counted. *)
Lemma aborted_insert_not_counted (conn : driver) (r : row) (s : SQLTarget)
  (h : list event) (sql : option string) (params : list param) (msg : string) :
  Error_class (db_module s) = true ->
  In (Called (cursor_execute sql (Some params)) (RaisedOther msg))
     (events_of (write conn r s h)) ->
  _counter (self_of (write conn r s h)) = _counter s /\
  result_of (write conn r s h) = Raise (OtherException msg).
Proof.
  intros Herr Hin.
  pose proof (first_row_handling_keeps conn r s h) as (_ & Hcnt & _ & Hddl & _).
  destruct (write_cases conn r s h Herr) as [(e & _ & Hw)|(_ & t & Hphase & Hw)];
    rewrite Hw in *; simpl in *.
  - exfalso. exact (ddl_events_not_insert _ _ _ _ Hddl Hin).
  - apply in_app_or in Hin. destruct Hin as [Hin|Hin].
    + exfalso. exact (ddl_events_not_insert _ _ _ _ Hddl Hin).
    + destruct (insert_phase_insert _ _ _ _ _ _ _ _ Hphase Hin)
        as (_ & _ & _ & _ & Ht).
      simpl in Ht. rewrite Ht. simpl. auto.
Qed.

(** ** The plan and the width of the rows *)

(** With a non-empty first row on record, a row of another width is refused
    before anything is bound or executed, and the writer is left as it was. *)
Lemma write_width_mismatch (conn : driver) (r first : row) (s : SQLTarget)
  (h : list event) :
  _first_row s = Some first ->
  items first <> [] ->
  len r <> len first ->
  write conn r s h =
  Run s [] (Raise (TypeError "Rows must have the same number of elements")).
Proof.
  intros Hfirst Hne Hlen.
  assert (Htruthy : truthy (_first_row s) = true)
    by (rewrite Hfirst; apply truthy_nonempty; exact Hne).
  pose proof (first_row_handling_fixed conn r first s h Hfirst Htruthy) as Hf.
  apply Nat.eqb_neq in Hlen. rewrite Hlen in Hf. simpl in Hf.
  exact (bind_raise (first_row_handling conn r)
           (fun _ => params <- bind_params r ;;
                     execute_insert conn r params ;;
                     count_and_commit conn)
           s h s [] _ Hf).
Qed.

Lemma insert_phase_keeps (conn : driver) (r : row) (s : SQLTarget)
  (h : list event) (t : run unit) :
  insert_phase conn r s h t ->
  same_config s (self_of t) /\
  _first_row (self_of t) = _first_row s /\
  _insert (self_of t) = _insert s /\
  _row_casts (self_of t) = _row_casts s /\
  _cursor (self_of t) = _cursor s.
Proof.
  intros [e Hb Ht|ps e Hb Hc Ht|ps msg Hb Hc Ho Ht
         |ps ev Hb Hc Ho Hev Ht|ps msg ev Hb Hc Ho Hev Ht];
    subst t; simpl; rewrite ?count_and_commit_self;
    unfold same_config; simpl; tauto.
Qed.

(** With a non-empty first row on record, no [write] changes the first row,
    the INSERT text or the casts. *)
Lemma write_keeps_plan (conn : driver) (r : row) (s : SQLTarget)
  (h : list event) :
  Error_class (db_module s) = true ->
  truthy (_first_row s) = true ->
  _first_row (self_of (write conn r s h)) = _first_row s /\
  _insert (self_of (write conn r s h)) = _insert s /\
  _row_casts (self_of (write conn r s h)) = _row_casts s.
Proof.
  intros Herr Htruthy.
  destruct (truthy_some _ Htruthy) as (first & Hfirst & _).
  pose proof (first_row_handling_fixed conn r first s h Hfirst Htruthy) as Hf.
  assert (Hself : self_of (first_row_handling conn r s h) = s)
    by (rewrite Hf; destruct (negb _); reflexivity).
  destruct (write_cases conn r s h Herr) as [(e & _ & Hw)|(_ & t & Hphase & Hw)];
    rewrite Hw; simpl.
  - rewrite Hself. auto.
  - rewrite Hself in Hphase.
    destruct (insert_phase_keeps _ _ _ _ _ Hphase) as (_ & H1 & H2 & H3 & _).
    auto.
Qed.

Lemma write_keeps_config (conn : driver) (r : row) (s : SQLTarget)
  (h : list event) :
  Error_class (db_module s) = true ->
  same_config s (self_of (write conn r s h)) /\
  _cursor (self_of (write conn r s h)) = _cursor s.
Proof.
  intros Herr.
  pose proof (first_row_handling_keeps conn r s h) as (Hcfg & _ & Hcur & _).
  destruct (write_cases conn r s h Herr) as [(e & _ & Hw)|(_ & t & Hphase & Hw)];
    rewrite Hw; simpl.
  - auto.
  - destruct (insert_phase_keeps _ _ _ _ _ Hphase) as (Hcfg' & _ & _ & _ & Hcur').
    split; [exact (same_config_trans _ _ _ Hcfg Hcfg')|congruence].
Qed.

(** The same over any number of further rows, whatever each [write] raises. *)
Lemma writes_keep_plan (conn : driver) (rows : list row) :
  forall (s : SQLTarget) (h : list event),
  Error_class (db_module s) = true ->
  truthy (_first_row s) = true ->
  _first_row (self_of (writes conn rows s h)) = _first_row s /\
  _insert (self_of (writes conn rows s h)) = _insert s /\
  _row_casts (self_of (writes conn rows s h)) = _row_casts s.
Proof.
  induction rows as [|r rows IH]; intros s h Herr Htruthy; simpl.
  - auto.
  - unfold bind, attempt.
    destruct (write_keeps_plan conn r s h Herr Htruthy) as (H1 & H2 & H3).
    destruct (write_keeps_config conn r s h Herr) as ((Hm & _) & _).
    destruct (write conn r s h) as [s1 ev1 res1]; simpl in *.
    assert (Herr1 : Error_class (db_module s1) = true) by congruence.
    assert (Htruthy1 : truthy (_first_row s1) = true) by congruence.
    destruct (IH s1 (h ++ ev1) Herr1 Htruthy1) as (I1 & I2 & I3).
    destruct (writes conn rows s1 (h ++ ev1)); simpl in *.
    repeat split; congruence.
Qed.

(** C4 (failing input [()] then [Row(x='a', y=...)]): line 220 tests the
    truth value of [self._first_row], and an empty first row is false, so the
    next [write] takes the first-row branch again and replaces the INSERT text
    and the casts that the first row had fixed. *)
Theorem empty_first_row_rebuilds_plan :
  let first := write Sample.accepting Sample.row_empty
                 (Sample.entered "qmark" defaults) [] in
  let second := write Sample.accepting Sample.row_xy
                  (self_of first) (events_of first) in
  result_of first = Ok tt /\
  _insert (self_of first) = Some "INSERT INTO t VALUES ()"%string /\
  _row_casts (self_of first) = Some [] /\
  _first_row (self_of second) = Some Sample.row_xy /\
  _insert (self_of second) = Some "INSERT INTO t VALUES (?, ?)"%string /\
  _row_casts (self_of second) = Some [None; Some cast_str].
Proof. vm_compute. repeat split; reflexivity. Qed.

(** C7 (failing input [()] then [Row(x='a', y=...)]): after an empty first
    row a row of another width is not refused: line 220 sends it through the
    first-row branch, its INSERT is executed and it is counted. *)
Theorem empty_first_row_admits_other_width :
  let first := write Sample.accepting Sample.row_empty
                 (Sample.entered "qmark" defaults) [] in
  let second := write Sample.accepting Sample.row_xy
                  (self_of first) (events_of first) in
  _first_row (self_of first) = Some Sample.row_empty /\
  len Sample.row_xy <> len Sample.row_empty /\
  result_of second = Ok tt /\
  events_of second =
    [Called (cursor_execute (Some "INSERT INTO t VALUES (?, ?)"%string)
               (Some [Unchanged Sample.text_a; StrForm "127.0.0.1"]))
            Returned] /\
  _counter (self_of first) = 1 /\
  _counter (self_of second) = 2.
Proof. vm_compute. repeat split; try reflexivity. discriminate. Qed.

(** ** The INSERT statement *)

Lemma comprehension_map {A B} (f : A -> result B) (g : A -> B) (l : list A) :
  (forall x, In x l -> f x = Ok (g x)) ->
  comprehension f l = Ok (map g l).
Proof.
  induction l as [|a l IH]; intros H; [reflexivity|].
  unfold comprehension; fold (@comprehension A B).
  rewrite (H a (or_introl eq_refl)). simpl.
  rewrite IH by (intros x Hx; apply H; right; exact Hx).
  reflexivity.
Qed.

Lemma comprehension_first_raise {A B} (f : A -> result B) a (l : list A) e :
  f a = Raise e -> comprehension f (a :: l) = Raise e.
Proof.
  intros H. unfold comprehension; fold (@comprehension A B).
  rewrite H. reflexivity.
Qed.

Lemma enumerate_nil {A} (l : list A) : enumerate l = [] -> l = [].
Proof. destruct l; [reflexivity|discriminate]. Qed.

Lemma supported_cases (style : string) :
  supported style = true ->
  style = "qmark"%string \/ style = "numeric"%string \/
  style = "named"%string \/ style = "format"%string \/
  style = "pyformat"%string.
Proof.
  unfold supported. simpl. rewrite !orb_true_iff, !String.eqb_eq.
  intuition discriminate.
Qed.

Lemma unsupported_raises (style : string) i name :
  supported style = false ->
  placeholder style i name = Raise (KeyError_str style).
Proof.
  unfold supported, placeholder. simpl. rewrite !orb_false_iff.
  intros (H1 & H2 & H3 & H4 & H5 & _).
  rewrite H1, H2, H3, H4, H5. reflexivity.
Qed.

(** The code's table agrees with the specification's on every style but the
    numbered one. *)
Lemma placeholder_matches_spec (style : string) (i : nat) (name : string) :
  style <> "numeric"%string ->
  placeholder style i name =
  match spec_placeholder style i name with
  | Some p => Ok p
  | None => Raise (KeyError_str style)
  end.
Proof.
  intros Hnum. apply String.eqb_neq in Hnum.
  unfold placeholder, spec_placeholder. rewrite Hnum.
  destruct (String.eqb style "qmark"); [reflexivity|].
  destruct (String.eqb style "named"); [reflexivity|].
  destruct (String.eqb style "format"); [reflexivity|].
  destruct (String.eqb style "pyformat"); reflexivity.
Qed.

(** On the numbered style the code renders the index that [enumerate] gives,
    which starts at zero; the specification's table starts at one. *)
Lemma placeholder_numeric (i : nat) (name : string) :
  placeholder "numeric" i name = Ok (":" ++ pct_d i)%string /\
  spec_placeholder "numeric" i name = Some (":" ++ pct_d (i + 1)%nat)%string.
Proof. split; reflexivity. Qed.

(** For a supported style the statement has one placeholder per field. *)
Lemma insert_text_supported (module : db_module_t) (tbl : string) (r : row)
  (style : string) :
  paramstyle module = Some style ->
  supported style = true ->
  insert_text module tbl r =
  Ok ("INSERT INTO " ++ tbl ++ " VALUES (" ++
      String.concat ", " (map (rendered style) (enumerate (field_names r))) ++
      ")")%string.
Proof.
  intros Hstyle Hsup. unfold insert_text, module_paramstyle. rewrite Hstyle.
  rewrite (comprehension_map _ (rendered style)); [reflexivity|].
  intros [i name] _. unfold rendered. simpl.
  destruct (supported_cases style Hsup) as [H|[H|[H|[H|H]]]]; subst style;
    reflexivity.
Qed.

Lemma placeholders_per_field (style : string) (r : row) :
  length (map (rendered style) (enumerate (field_names r))) =
  length (field_names r).
Proof.
  unfold enumerate. rewrite length_map, length_combine, length_seq.
  apply Nat.min_id.
Qed.

(** An unknown style is a [KeyError] as soon as there is a field to render. *)
Lemma insert_text_unknown_style (module : db_module_t) (tbl : string) (r : row)
  (style : string) :
  paramstyle module = Some style ->
  supported style = false ->
  field_names r <> [] ->
  insert_text module tbl r = Raise (KeyError_str style).
Proof.
  intros Hstyle Hsup Hne. unfold insert_text, module_paramstyle.
  rewrite Hstyle.
  destruct (enumerate (field_names r)) as [|[i name] l] eqn:He.
  - apply enumerate_nil in He. contradiction.
  - rewrite (comprehension_first_raise _ _ _ (KeyError_str style));
      [reflexivity|].
    simpl. apply unsupported_raises. exact Hsup.
Qed.

(** Without a field the style is never looked up. *)
Lemma insert_text_no_fields (module : db_module_t) (tbl : string) (r : row) :
  field_names r = [] ->
  insert_text module tbl r = Ok ("INSERT INTO " ++ tbl ++ " VALUES ()")%string.
Proof. intros H. unfold insert_text. rewrite H. reflexivity. Qed.

(** C3 (failing input: paramstyle [numeric], first row
    [Row(x='a', y=...)]): line 191 formats the index that [enumerate] yields
    from zero, so the statement reads [(:0, :1)], where the binding style
    of the specification's table numbers the placeholders [:1], [:2]. *)
Theorem numbered_placeholders_start_at_zero :
  insert_statement (Sample.entered "numeric" defaults) Sample.row_xy =
    Ok "INSERT INTO t VALUES (:0, :1)"%string /\
  _insert (self_of (write Sample.accepting Sample.row_xy
                      (Sample.entered "numeric" defaults) [])) =
    Some "INSERT INTO t VALUES (:0, :1)"%string /\
  map (fun field => spec_placeholder "numeric" (fst field) (snd field))
      (enumerate (field_names Sample.row_xy)) =
    [Some ":1"%string; Some ":2"%string].
Proof. vm_compute. repeat split; reflexivity. Qed.

(** ** The coercion plan *)

Arguments cast_for : simpl never.
Arguments isinstance : simpl never.






(** ** The first write *)



Lemma in_prefix {A} (x : A) (k : nat) (l : list A) :
  In x (firstn k l) -> In x l.
Proof.
  intros H. rewrite <- (firstn_skipn k l). apply in_or_app. left. exact H.
Qed.



(** ** What stops the first write, and what lets it return *)

Lemma getitem_error (d : list (pytype * string)) (k : pytype) (e : exn) :
  getitem d k = Raise e -> e = KeyError_type k.
Proof.
  induction d as [|[k' v] d IH]; unfold getitem; fold getitem.
  - intros H. inversion H. reflexivity.
  - destruct (pytype_eqb k' k); [discriminate|exact IH].
Qed.

Lemma comprehension_raise_inv {A B} (f : A -> result B) (l : list A) e :
  comprehension f l = Raise e -> exists x, In x l /\ f x = Raise e.
Proof.
  induction l as [|a l IH]; unfold comprehension; fold (@comprehension A B).
  - discriminate.
  - destruct (f a) as [b|e0] eqn:Hfa; simpl.
    + destruct (comprehension f l) as [bs|e1]; simpl; [discriminate|].
      intros H. inversion H; subst.
      destruct (IH eq_refl) as (x & Hx & Hfx). exists x. auto.
    + intros H. inversion H; subst. exists a. auto.
Qed.

(** Building the INSERT text can fail on the paramstyle only: the module has
    none, or it is not one of the five keys of lines 190-194. *)
Lemma insert_text_raises (m : db_module_t) (tbl : string) (r : row) (e : exn) :
  insert_text m tbl r = Raise e ->
  exists msg, e = AttributeError msg \/ e = KeyError_str msg.
Proof.
  unfold insert_text. intros H.
  destruct (comprehension _ _) as [values|e0] eqn:Hc; simpl in H;
    [discriminate H|].
  inversion H; subst.
  destruct (comprehension_raise_inv _ _ _ Hc) as ([i name] & _ & Hx).
  unfold module_paramstyle, placeholder in Hx.
  destruct (paramstyle m) as [style|]; simpl in Hx.
  - repeat match type of Hx with
           | (if ?b then _ else _) = _ => destruct b; [discriminate Hx|]
           end.
    inversion Hx. eauto.
  - inversion Hx. eauto.
Qed.

(** Line 239 can fail on [int(value)] only. *)
Lemma apply_cast_raises (cv : option cast * value) (e : exn) :
  apply_cast cv = Raise e -> exists msg, e = TypeError msg.
Proof.
  destruct cv as [[[|]|] v]; simpl; try discriminate.
  destruct (int_ v); [discriminate|].
  intros H. inversion H. eauto.
Qed.

Ltac progress_leaf :=
  first
    [ intros; split; congruence
    | intros; congruence
    | let H := fresh "H" in intros ? H; inversion H; subst; simpl; tauto
    | let Hcreate := fresh "Hcreate" in
      let Hret := fresh "Hret" in
      intros ? ? ? ? ? Hcreate Hret;
      first
        [ reflexivity
        | destruct Hcreate as (? & ?); [assumption|congruence]
        | discriminate (Hret _ _ (or_introl eq_refl))
        | discriminate (Hret _ _ (or_intror (or_introl eq_refl)))
        | discriminate (Hret _ _ (or_intror (or_intror (or_introl eq_refl))))
        | discriminate
            (Hret _ _ (or_intror (or_intror (or_intror (or_introl eq_refl))))) ] ].

Lemma first_row_handling_progress (conn : driver) (r : row) (s : SQLTarget)
  (h : list event) :
  truthy (_first_row s) = false ->
  first_row_progress conn r s h (first_row_handling conn r s h).
Proof.
  intros Hfresh.
  unfold first_row_handling.
  unfold _generate_statement, _drop_table, _create_table, on_cursor,
    except_Error, bind, get, modify, lift, emit, invoke, raise, ret,
    insert_statement, create_statement, drop_statement.
  rewrite Hfresh. tidy.
  repeat split_run.
  all: constructor;
    unfold drop_event, raised_by_a_call, insert_statement, create_statement,
      drop_statement;
    tidy.
  all: progress_leaf.
Qed.

(** The values of the first row itself can be bound with the casts built from
    it whenever [int()] is defined on its IP addresses. *)
Lemma bind_first_row (ip_cast : cast) (vals : list value) :
  (forall v, In v vals ->
             isinstance v [IPv4Address; IPv6Address] = true -> int_ v <> None) ->
  exists params,
    comprehension apply_cast (combine (map (cast_for ip_cast) vals) vals) =
      Ok params.
Proof.
  induction vals as [|v vals IH]; intros Hint.
  - exists []. reflexivity.
  - destruct IH as (params & Hp).
    { intros w Hw. apply Hint. right. exact Hw. }
    assert (Hhead : exists p, apply_cast (cast_for ip_cast v, v) = Ok p).
    { pose proof (Hint v (or_introl eq_refl)) as Hv.
      unfold cast_for, apply_cast.
      destruct (isinstance v [IPv4Address; IPv6Address]).
      - destruct ip_cast; [|eauto].
        destruct (int_ v); [eauto|]. exfalso. apply Hv; reflexivity.
      - destruct (isinstance v [Url]); eauto. }
    destruct Hhead as (p & Hhead).
    exists (p :: params). simpl.
    unfold comprehension; fold (@comprehension (option cast * value) param).
    rewrite Hhead. simpl. rewrite Hp. reflexivity.
Qed.

Lemma count_and_commit_returns (conn : driver) (s : SQLTarget)
  (h : list event) :
  commit s <> 0 ->
  (forall c o, In (Called c o) (events_of (count_and_commit conn s h)) ->
               o = Returned) ->
  result_of (count_and_commit conn s h) = Ok tt.
Proof.
  intros Hk. rewrite count_and_commit_run. simpl.
  destruct (commit s =? 0) eqn:Hz; [apply Z.eqb_eq in Hz; contradiction|].
  destruct ((_counter s + 1) mod commit s =? 0); simpl; [|reflexivity].
  intros Hret. rewrite (Hret _ _ (or_introl eq_refl)). reflexivity.
Qed.

Lemma count_and_commit_raises (conn : driver) (s : SQLTarget)
  (h : list event) (e : exn) :
  result_of (count_and_commit conn s h) = Raise e -> raised_after_first_row e.
Proof.
  rewrite count_and_commit_run. simpl.
  destruct (commit s =? 0); simpl.
  - intros H. inversion H. exact I.
  - destruct ((_counter s + 1) mod commit s =? 0); simpl; [|discriminate].
    destruct (conn h connection_commit); intros H; inversion H; exact I.
Qed.

(** Lines 237-250 return once the parameters are bound, the cursor is there,
    the threshold is not zero and the driver raises nothing; the INSERT is
    then the first thing they call. *)
Lemma insert_phase_returns (conn : driver) (r : row) (s : SQLTarget)
  (h : list event) (t : run unit) (sql : string) :
  insert_phase conn r s h t ->
  _cursor s = true ->
  commit s <> 0 ->
  _insert s = Some sql ->
  (exists params, result_of (bind_params r s h) = Ok params) ->
  (forall c o, In (Called c o) (events_of t) -> o = Returned) ->
  result_of t = Ok tt /\
  exists params,
    hd_error (events_of t) =
      Some (Called (cursor_execute (Some sql) (Some params)) Returned).
Proof.
  intros [e Hb Ht|ps e Hb Hc Ht|ps msg Hb Hc Ho Ht
         |ps ev Hb Hc Ho Hev Ht|ps msg ev Hb Hc Ho Hev Ht]
         Hcur Hk Hsql (params & Hparams) Hret;
    subst t; simpl in *.
  - rewrite Hb in Hparams. discriminate Hparams.
  - congruence.
  - discriminate (Hret _ _ (or_introl eq_refl)).
  - subst ev. split.
    + apply count_and_commit_returns; [exact Hk|].
      intros c o Hin. apply (Hret c o). right. exact Hin.
    + exists ps. rewrite Hsql. reflexivity.
  - subst ev. discriminate (Hret _ _ (or_introl eq_refl)).
Qed.


(** What lines 237-250 may raise. *)
Lemma insert_phase_raises (conn : driver) (r : row) (s : SQLTarget)
  (h : list event) (e : exn) :
  Error_class (db_module s) = true ->
  result_of ((params <- bind_params r ;;
              execute_insert conn r params ;;
              count_and_commit conn) s h) = Raise e ->
  raised_after_first_row e.
Proof.
  intros Herr.
  pose proof (bind_params_run r s h) as Hbind.
  unfold bind at 1.
  destruct (bind_params r s h) as [s0 ev0 [params|e0]] eqn:Hrun;
    inversion Hbind as [[Hs Hev Hres]]; subst s0 ev0; clear Hbind.
  2:{ simpl. intros H. inversion H; subst.
      destruct (_row_casts s) as [casts|].
      - symmetry in Hres.
        destruct (comprehension_raise_inv _ _ _ Hres) as (cv & _ & Hcv).
        destruct (apply_cast_raises _ _ Hcv) as (msg & Hmsg).
        subst e. exact I.
      - inversion Hres. exact I. }
  unfold execute_insert, except_Error, on_cursor, bind, get, emit, invoke,
    raise.
  tidy.
  destruct (_cursor s).
  2:{ rewrite Herr. simpl. intros H. inversion H. exact I. }
  tidy.
  destruct (conn h (cursor_execute (_insert s) (Some params))) as [|msg|msg].
  - pose proof (count_and_commit_raises conn s
                  (h ++ [Called (cursor_execute (_insert s) (Some params))
                                Returned]) e) as Hcc.
    destruct (count_and_commit conn s _). exact Hcc.
  - rewrite Herr. tidy.
    pose proof (count_and_commit_raises conn s
                  (h ++ [Called (cursor_execute (_insert s) (Some params))
                                (RaisedError msg);
                         Warned (msg ++ " while inserting row " ++ text r)%string])
                  e) as Hcc.
    destruct (count_and_commit conn s _). exact Hcc.
  - rewrite Herr. simpl. intros H. inversion H. exact I.
Qed.

(** A [write] that raises in lines 220-235 goes no further. *)
Lemma write_stops_early (conn : driver) (r : row) (s : SQLTarget)
  (h : list event) (e : exn) :
  result_of (first_row_handling conn r s h) = Raise e ->
  write conn r s h = first_row_handling conn r s h.
Proof.
  intros Hres.
  destruct (first_row_handling conn r s h) as [s1 ev1 res1] eqn:Hf.
  simpl in Hres. subst res1.
  exact (bind_raise (first_row_handling conn r)
           (fun _ => params <- bind_params r ;;
                     execute_insert conn r params ;;
                     count_and_commit conn)
           s h s1 ev1 e Hf).
Qed.

(** What the first [write] of a session may raise: what building the INSERT
    text raises, the [KeyError] of line 208, what building the CREATE text
    raises, or what a call or the lines after it raise. *)
Lemma write_first_raises (conn : driver) (r : row) (s : SQLTarget)
  (h : list event) (e : exn) :
  Error_class (db_module s) = true ->
  truthy (_first_row s) = false ->
  result_of (write conn r s h) = Raise e ->
  insert_statement s r = Raise e \/
  getitem (type_map s) IPv4Address = Raise e \/
  (create_table s = true /\ create_statement s r = Raise e) \/
  raised_after_first_row e.
Proof.
  intros Herr Hfresh.
  destruct (first_row_handling_progress conn r s h Hfresh)
    as [_ _ Hraises _ _].
  pose proof (first_row_handling_keeps conn r s h) as (Hcfg & _).
  destruct (first_row_handling conn r s h) as [s1 ev1 [[]|e1]] eqn:Hf;
    simpl in *.
  - unfold write.
    rewrite (bind_ok (first_row_handling conn r)
               (fun _ => params <- bind_params r ;;
                         execute_insert conn r params ;;
                         count_and_commit conn)
               s h s1 ev1 tt Hf).
    simpl. intros Hres. right. right. right.
    apply (insert_phase_raises conn r s1 (h ++ ev1) e); [|exact Hres].
    destruct Hcfg as (Hm & _). rewrite <- Hm. exact Herr.
  - rewrite (write_stops_early conn r s h e1) by (rewrite Hf; reflexivity).
    rewrite Hf. simpl. intros Hres. inversion Hres; subst e1.
    destruct (Hraises e eq_refl) as [H|[H|[H|H]]]; auto.
    right. right. right. destruct e; simpl in *; tauto.
Qed.

(** The first [write] of a session returns when the plan can be built, the
    cursor is there, the threshold is not zero, the CREATE text (when
    requested) can be built, [int()] is defined on the IP addresses of the
    row and no call of the driver raises; the INSERT was then executed. *)
Lemma write_first_returns (conn : driver) (r : row) (s : SQLTarget)
  (h : list event) (sql ip_column_type : string) :
  Error_class (db_module s) = true ->
  truthy (_first_row s) = false ->
  insert_statement s r = Ok sql ->
  getitem (type_map s) IPv4Address = Ok ip_column_type ->
  _cursor s = true ->
  commit s <> 0 ->
  (create_table s = true -> exists text, create_statement s r = Ok text) ->
  (forall v, In v (items r) ->
             isinstance v [IPv4Address; IPv6Address] = true -> int_ v <> None) ->
  (forall c o, In (Called c o) (events_of (write conn r s h)) -> o = Returned) ->
  result_of (write conn r s h) = Ok tt /\
  exists params,
    In (Called (cursor_execute (Some sql) (Some params)) Returned)
       (events_of (write conn r s h)).
Proof.
  intros Herr Hfresh Hsql Hip Hcur Hk Hcreate Hint.
  destruct (first_row_handling_progress conn r s h Hfresh)
    as [Hplan _ _ Hreturns _].
  destruct (Hplan sql ip_column_type Hsql Hip) as (Hins & Hcasts).
  pose proof (first_row_handling_keeps conn r s h)
    as (Hcfg & _ & Hcur' & _ & _).
  destruct (write_cases conn r s h Herr)
    as [(e & Hres & Hw)|(Hres & t & Hphase & Hw)];
    rewrite Hw; simpl.
  - intros Hret.
    rewrite (Hreturns sql ip_column_type Hsql Hip Hcur Hcreate Hret) in Hres.
    discriminate Hres.
  - intros Hret.
    destruct (insert_phase_returns conn r _ _ t sql Hphase) as (Hok & ps & Hhd).
    + congruence.
    + destruct Hcfg as (_ & _ & Hc & _). rewrite <- Hc. exact Hk.
    + exact Hins.
    + rewrite bind_params_run, Hcasts. simpl. unfold row_casts_for.
      exact (bind_first_row (ip_cast_for ip_column_type) (items r) Hint).
    + intros c o Hin. apply (Hret c o). apply in_or_app. right. exact Hin.
    + split; [exact Hok|]. exists ps. apply in_or_app. right.
      destruct (events_of t) as [|e0 tr]; [discriminate Hhd|].
      inversion Hhd. left. reflexivity.
Qed.


(** Without create-table, [write] reads the type map at the IP address
    class only. *)
Lemma first_row_handling_reads_ip_type (conn : driver) (r : row)
  (s : SQLTarget) (h : list event) (types : list (pytype * string)) :
  create_table s = false ->
  getitem types IPv4Address = getitem (type_map s) IPv4Address ->
  first_row_handling conn r (with_type_map types s) h =
  as_with_type_map types (first_row_handling conn r s h).
Proof.
  intros Hcreate Hget.
  unfold as_with_type_map, first_row_handling.
  unfold _generate_statement, _drop_table, _create_table, on_cursor,
    except_Error, bind, get, modify, lift, emit, invoke, raise, ret,
    insert_statement, create_statement, drop_statement.
  tidy. rewrite Hcreate.
  destruct (truthy (_first_row s)).
  - destruct (_first_row s) as [first|]; [|reflexivity].
    destruct (negb (Nat.eqb (len r) (len first))); reflexivity.
  - tidy. destruct (insert_text (db_module s) (table s) r); [|reflexivity].
    tidy. rewrite Hget.
    repeat split_run; reflexivity.
Qed.

Lemma insert_phase_reads_no_type (conn : driver) (r : row)
  (s : SQLTarget) (h : list event) (types : list (pytype * string)) :
  (params <- bind_params r ;;
   execute_insert conn r params ;;
   count_and_commit conn) (with_type_map types s) h =
  as_with_type_map types
    ((params <- bind_params r ;;
      execute_insert conn r params ;;
      count_and_commit conn) s h).
Proof.
  unfold as_with_type_map.
  unfold_methods. tidy.
  destruct (_row_casts s) as [casts|]; [|reflexivity]. tidy.
  destruct (comprehension apply_cast (combine casts (items r))); [|reflexivity].
  tidy.
  repeat split_run; reflexivity.
Qed.

Lemma write_reads_ip_type (conn : driver) (r : row)
  (s : SQLTarget) (h : list event) (types : list (pytype * string)) :
  create_table s = false ->
  getitem types IPv4Address = getitem (type_map s) IPv4Address ->
  write conn r (with_type_map types s) h =
  as_with_type_map types (write conn r s h).
Proof.
  intros Hcreate Hget.
  pose proof (first_row_handling_reads_ip_type conn r s h types Hcreate Hget)
    as Hf.
  unfold write.
  destruct (first_row_handling conn r s h) as [s1 ev1 [[]|e]] eqn:Hs;
    unfold as_with_type_map in Hf; simpl in Hf.
  - rewrite (bind_ok _ _ _ _ _ _ _ Hf), (bind_ok _ _ _ _ _ _ _ Hs).
    rewrite insert_phase_reads_no_type. reflexivity.
  - rewrite (bind_raise _ _ _ _ _ _ _ Hf), (bind_raise _ _ _ _ _ _ _ Hs).
    reflexivity.
Qed.




(** ** The type map *)

Lemma comprehension_raises {A B} (f : A -> result B) (l : list A) x e :
  In x l -> f x = Raise e -> exists e', comprehension f l = Raise e'.
Proof.
  induction l as [|a l IH]; intros Hin Hx; [contradiction|].
  unfold comprehension; fold (@comprehension A B).
  destruct (f a) as [b|e0] eqn:Hfa; [|simpl; eauto].
  destruct Hin as [Heq|Hin]; [congruence|].
  destruct (IH Hin Hx) as (e' & He'). rewrite He'. simpl. eauto.
Qed.

Lemma in_combine_right {A B} (l1 : list A) :
  forall (l2 : list B) (y : B),
  length l1 = length l2 -> In y l2 -> exists x, In (x, y) (combine l1 l2).
Proof.
  induction l1 as [|a l1 IH]; intros [|b l2] y Hlen Hin;
    try discriminate Hlen; [contradiction|].
  destruct Hin as [Heq|Hin].
  - subst. exists a. left. reflexivity.
  - destruct (IH l2 y) as (x & Hx); [simpl in Hlen; congruence|exact Hin|].
    exists x. right. exact Hx.
Qed.

(** A plain tuple gets one synthesized name per value; a namedtuple has one
    field name per value by construction. *)
Lemma field_names_plain (r : row) :
  _fields r = None -> length (field_names r) = len r.
Proof.
  intros H. unfold field_names. rewrite H.
  rewrite length_map, length_seq. reflexivity.
Qed.

(** The CREATE text cannot be built when a value's class is not in the map. *)
Lemma create_text_unmapped (types : list (pytype * string)) (tbl : string)
  (r : row) (v : value) :
  length (field_names r) = len r ->
  In v (items r) ->
  (forall column_type, getitem types (type_ v) <> Ok column_type) ->
  exists e, create_text types tbl r = Raise e.
Proof.
  intros Hlen Hin Hmiss. unfold create_text.
  destruct (in_combine_right (field_names r) (items r) v Hlen Hin) as (name & Hnv).
  destruct (getitem types (type_ v)) as [t|e] eqn:Hget;
    [exfalso; exact (Hmiss t eq_refl)|].
  destruct (comprehension_raises
              (fun '(name, v) =>
                 rbind (getitem types (type_ v))
                       (fun type => Ok (name ++ " " ++ type)%string))
              (combine (field_names r) (items r)) (name, v) e Hnv)
    as (e' & He').
  - simpl. rewrite Hget. reflexivity.
  - rewrite He'. simpl. eauto.
Qed.

(** C5 (amended): let some value of the first row have a class without an
    entry in the type map.  When create-table is requested, the first
    [write] of the session raises; neither the CREATE nor the INSERT is
    executed (the DROP, which comes first, may have been).  When create-table
    is not requested, the classes of the values are not looked up: the call
    does exactly what it does for any other type map with the same entry for
    the IP address class, the entry line 208 reads; the only [KeyError] for a
    class it can raise is the one for that entry; and whenever the plan can
    be built, the cursor is open, the threshold is not zero, [int()] is
    defined on the IP addresses of the row and no call of the driver raises,
    the call returns and the row's INSERT was accepted. *)
Theorem create_needs_every_type (conn : driver) (r : row) (s : SQLTarget)
  (h : list event) (v : value) :
  _first_row s = None ->
  length (field_names r) = len r ->
  In v (items r) ->
  (forall column_type, getitem (type_map s) (type_ v) <> Ok column_type) ->
  let out := write conn r s h in
  (create_table s = true ->
   (exists e, result_of out = Raise e) /\
   count is_attempted (events_of out) = 0 /\
   (forall sql, In sql (executed (events_of out)) -> sql = drop_statement s)) /\
  (create_table s = false ->
   (forall types,
      getitem types IPv4Address = getitem (type_map s) IPv4Address ->
      write conn r (with_type_map types s) h = as_with_type_map types out) /\
   (Error_class (db_module s) = true ->
    (forall k,
       result_of out = Raise (KeyError_type k) ->
       k = IPv4Address /\
       getitem (type_map s) IPv4Address = Raise (KeyError_type IPv4Address)) /\
    (forall sql ip_column_type,
       insert_statement s r = Ok sql ->
       getitem (type_map s) IPv4Address = Ok ip_column_type ->
       _cursor s = true ->
       commit s <> 0 ->
       (forall w, In w (items r) ->
                  isinstance w [IPv4Address; IPv6Address] = true ->
                  int_ w <> None) ->
       (forall c o, In (Called c o) (events_of out) -> o = Returned) ->
       result_of out = Ok tt /\
       exists params,
         In (Called (cursor_execute (Some sql) (Some params)) Returned)
            (events_of out)))).
Proof.
  intros Hnone Hlen Hin Hmiss out. subst out.
  assert (Hfresh : truthy (_first_row s) = false) by (rewrite Hnone; reflexivity).
  split.
  - intros Hcreate.
    destruct (create_text_unmapped (type_map s) (table s) r v Hlen Hin Hmiss)
      as (e & He).
    destruct (first_row_handling_fresh conn r s h Hfresh)
      as [_ _ _ _ Hddl _ _ _ (k & Hprefix) _ Hfail].
    destruct (Hfail Hcreate e He) as (e' & Hres).
    rewrite (write_stops_early conn r s h e' Hres).
    split; [eauto|]. split.
    + exact (proj1 (ddl_events_counts _ Hddl)).
    + intros sql Hsql. rewrite Hprefix in Hsql. apply in_prefix in Hsql.
      unfold ddl_statements in Hsql. rewrite Hcreate in Hsql.
      unfold create_statement in Hsql. rewrite He in Hsql.
      rewrite app_nil_r in Hsql.
      destruct (drop_table s); [|contradiction].
      destruct Hsql as [Heq|[]]. congruence.
  - intros Hcreate. split.
    + intros types Hget. exact (write_reads_ip_type conn r s h types Hcreate Hget).
    + intros Herr. split.
      * intros k Hres.
        destruct (write_first_raises conn r s h _ Herr Hfresh Hres)
          as [H|[H|[(H & _)|H]]].
        -- destruct (insert_text_raises _ _ _ _ H) as (msg & [Hm|Hm]);
             discriminate Hm.
        -- pose proof (getitem_error _ _ _ H) as Hk. inversion Hk; subst k.
           split; [reflexivity|exact H].
        -- congruence.
        -- contradiction H.
      * intros sql ipt Hsql Hip Hcur Hk Hint Hret.
        apply (write_first_returns conn r s h sql ipt Herr Hfresh Hsql Hip
                 Hcur Hk); [|exact Hint|exact Hret].
        intros Hc. congruence.
Qed.

Lemma create_needs_every_type_witness :
  ((exists e, result_of (write Sample.accepting Sample.row_none
                           (Sample.entered "qmark" Sample.create_only) []) =
              Raise e) /\
   count is_attempted
     (events_of (write Sample.accepting Sample.row_none
                   (Sample.entered "qmark" Sample.create_only) [])) = 0) /\
  (result_of (write Sample.accepting Sample.row_none
                (Sample.entered "qmark" defaults) []) = Ok tt /\
   exists params,
     In (Called (cursor_execute (Some "INSERT INTO t VALUES (?)"%string)
                                (Some params)) Returned)
        (events_of (write Sample.accepting Sample.row_none
                      (Sample.entered "qmark" defaults) []))).
Proof.
  split.
  - destruct (create_needs_every_type Sample.accepting Sample.row_none
                (Sample.entered "qmark" Sample.create_only) [] Sample.none
                eq_refl eq_refl (or_introl eq_refl)) as (Hcreate & _).
    + intros column_type. vm_compute. discriminate.
    + destruct (Hcreate eq_refl) as (Hraise & Hcount & _).
      split; [exact Hraise | exact Hcount].
  - destruct (create_needs_every_type Sample.accepting Sample.row_none
                (Sample.entered "qmark" defaults) [] Sample.none
                eq_refl eq_refl (or_introl eq_refl)) as (_ & Hplain).
    + intros column_type. vm_compute. discriminate.
    + destruct (Hplain eq_refl) as (_ & Hrest).
      destruct (Hrest eq_refl) as (_ & Hreturns).
      apply (Hreturns "INSERT INTO t VALUES (?)"%string "VARCHAR(53)"%string).
      * reflexivity.
      * reflexivity.
      * reflexivity.
      * discriminate.
      * intros w [Hw|[]] Hip; subst w; vm_compute in Hip; discriminate Hip.
      * intros c o Hin. vm_compute in Hin.
        repeat (destruct Hin as [Hin|Hin]; [inversion Hin; reflexivity|]).
        contradiction.
Defined.

(** C5 as stated fails for the default configuration: without create-table
    the type map is read for the IP column type only, and a row whose only
    value has no entry is inserted. *)
Lemma unmapped_type_written :
  __init__ (Sample.module "qmark") "t" defaults =
    Ok (Sample.writer "qmark" defaults) /\
  (forall v, In v (items Sample.row_none) ->
             getitem (type_map (Sample.writer "qmark" defaults)) (type_ v) =
             Raise (KeyError_type (type_ v))) /\
  calls_of (events_of (session Sample.accepting [Sample.row_none]
                         (Sample.writer "qmark" defaults) [])) =
    [ connection_cursor;
      cursor_execute (Some "INSERT INTO t VALUES (?)"%string)
                     (Some [Unchanged Sample.none]);
      cursor_close;
      connection_commit ] /\
  result_of (write Sample.accepting Sample.row_none
               (Sample.entered "qmark" defaults) []) = Ok tt.
Proof.
  split; [reflexivity|]. split; [|split; reflexivity].
  intros v [Hv|[]]. subst v. reflexivity.
Qed.

(** ** Rows the backend rejects *)

(** When lines 220-235 return, a first row of the width of [r] is on record. *)
Lemma first_row_handling_ok (conn : driver) (r : row) (s : SQLTarget)
  (h : list event) :
  result_of (first_row_handling conn r s h) = Ok tt ->
  exists first,
    _first_row (self_of (first_row_handling conn r s h)) = Some first /\
    len r = len first.
Proof.
  intros Hres.
  destruct (truthy (_first_row s)) eqn:Htruthy.
  - destruct (truthy_some _ Htruthy) as (first & Hfirst & _).
    rewrite (first_row_handling_fixed conn r first s h Hfirst Htruthy) in *.
    destruct (Nat.eqb (len r) (len first)) eqn:Hlen; simpl in *;
      [|discriminate Hres].
    exists first. split; [exact Hfirst|].
    apply Nat.eqb_eq. exact Hlen.
  - destruct (first_row_handling_fresh conn r s h Htruthy).
    exists r. split; [assumption|reflexivity].
Qed.

(** With a non-empty first row on record, a row of that width whose
    parameters can be bound goes straight to the cursor; when the backend
    accepts it, lines 247-250 follow. *)
Lemma write_accepted (conn : driver) (r first : row) (s : SQLTarget)
  (h : list event) (params : list param) :
  Error_class (db_module s) = true ->
  _first_row s = Some first ->
  items first <> [] ->
  len r = len first ->
  _cursor s = true ->
  result_of (bind_params r s h) = Ok params ->
  conn h (cursor_execute (_insert s) (Some params)) = Returned ->
  write conn r s h =
  Run (self_of (count_and_commit conn s
                  (h ++ [Called (cursor_execute (_insert s) (Some params))
                                Returned])))
      (Called (cursor_execute (_insert s) (Some params)) Returned ::
       events_of (count_and_commit conn s
                    (h ++ [Called (cursor_execute (_insert s) (Some params))
                                  Returned])))
      (result_of (count_and_commit conn s
                    (h ++ [Called (cursor_execute (_insert s) (Some params))
                                  Returned]))).
Proof.
  intros Herr Hfirst Hne Hlen Hcur Hbind Hconn.
  assert (Htruthy : truthy (_first_row s) = true)
    by (rewrite Hfirst; apply truthy_nonempty; exact Hne).
  pose proof (first_row_handling_fixed conn r first s h Hfirst Htruthy) as Hf.
  apply Nat.eqb_eq in Hlen. rewrite Hlen in Hf. simpl in Hf.
  rewrite bind_params_run in Hbind. simpl in Hbind.
  destruct (write_cases conn r s h Herr) as [(e & Hres & _)|(_ & t & Hphase & Hw)].
  - rewrite Hf in Hres. discriminate Hres.
  - rewrite Hw. rewrite Hf in *. simpl in *. rewrite app_nil_r in Hphase.
    destruct Hphase as [e Hb Ht|ps e Hb Hc Ht|ps msg Hb Hc Ho Ht
                       |ps ev Hb Hc Ho Hev Ht|ps msg ev Hb Hc Ho Hev Ht];
      rewrite bind_params_run in Hb; inversion Hb as [Hb'];
      rewrite Hbind in Hb'; inversion Hb'; subst;
      first [reflexivity | congruence].
Qed.

Lemma no_warning_in_count_and_commit (conn : driver) (s : SQLTarget)
  (h : list event) :
  filter is_warning (events_of (count_and_commit conn s h)) = [].
Proof.
  destruct (count_and_commit_events conn s h) as [He|(o & He)]; rewrite He;
    reflexivity.
Qed.

(** C8 (amended): when the INSERT of a row raises the driver's error, the
    call gives exactly one warning, made of the error text and the text of
    the row; the row is counted; the error is not raised: the call returns,
    unless the count has reached a multiple of the threshold and the commit
    that is then due raises.  The next row of the same width is still sent to
    the cursor and counted. *)
Theorem rejected_row_warns (conn : driver) (r : row) (s : SQLTarget)
  (h : list event) (sql : option string) (params : list param) (msg : string) :
  Error_class (db_module s) = true ->
  1 <= commit s ->
  items r <> [] ->
  In (Called (cursor_execute sql (Some params)) (RaisedError msg))
     (events_of (write conn r s h)) ->
  let out := write conn r s h in
  filter is_warning (events_of out) =
    [Warned (msg ++ " while inserting row " ++ text r)%string] /\
  _counter (self_of out) = _counter s + 1 /\
  (result_of out = Ok tt \/
   exists o pre,
     o <> Returned /\
     (_counter s + 1) mod commit s = 0 /\
     events_of out = pre ++ [Called connection_commit o]) /\
  forall (r' : row) (h' : list event) (params' : list param),
    len r' = len r ->
    result_of (bind_params r' (self_of out) h') = Ok params' ->
    conn h' (cursor_execute (_insert (self_of out)) (Some params')) = Returned ->
    hd_error (events_of (write conn r' (self_of out) h')) =
      Some (Called (cursor_execute (_insert (self_of out)) (Some params'))
                   Returned) /\
    _counter (self_of (write conn r' (self_of out) h')) = _counter s + 2.
Proof.
  intros Herr Hcommit Hne Hin out. subst out.
  pose proof (first_row_handling_keeps conn r s h)
    as (Hcfg & Hcnt & Hcur & Hddl & _).
  destruct (ddl_events_counts _ Hddl) as (_ & _ & Hnowarn).
  destruct (write_cases conn r s h Herr)
    as [(e & _ & Hw)|(Hres & t & Hphase & Hw)];
    rewrite Hw in *; simpl in Hin |- *.
  { exfalso. exact (ddl_events_not_insert _ _ _ _ Hddl Hin). }
  apply in_app_or in Hin. destruct Hin as [Hin|Hin].
  { exfalso. exact (ddl_events_not_insert _ _ _ _ Hddl Hin). }
  destruct (first_row_handling_ok conn r s h Hres) as (first & Hfirst & Hlen).
  destruct (insert_phase_insert _ _ _ _ _ _ _ _ Hphase Hin)
    as (_ & _ & Hopen & _ & Ht).
  simpl in Ht. clear Hphase Hin Hw.
  set (f := first_row_handling conn r s h) in *.
  set (ev := [Called (cursor_execute (_insert (self_of f)) (Some params))
                     (RaisedError msg);
              Warned (msg ++ " while inserting row " ++ text r)%string]) in *.
  change (Called (cursor_execute (_insert (self_of f)) (Some params))
                 (RaisedError msg)
          :: [Warned (msg ++ " while inserting row " ++ text r)%string])
    with ev in Ht.
  destruct Hcfg as (Hmod & _ & Hcom & _).
  subst t. simpl.
  split; [|split; [|split]].
  - rewrite filter_app, Hnowarn. simpl.
    rewrite no_warning_in_count_and_commit. reflexivity.
  - rewrite count_and_commit_self. simpl. rewrite Hcnt. reflexivity.
  - rewrite count_and_commit_run. simpl.
    rewrite <- Hcom, Hcnt.
    destruct (commit s =? 0) eqn:Hzero; [apply Z.eqb_eq in Hzero; lia|].
    destruct ((_counter s + 1) mod commit s =? 0) eqn:Hmul;
      [|left; reflexivity].
    apply Z.eqb_eq in Hmul.
    destruct (conn ((h ++ events_of f) ++ ev) connection_commit) as [|m|m] eqn:Ho.
    + left. reflexivity.
    + right. exists (RaisedError m), (events_of f ++ ev).
      split; [discriminate|]. split; [exact Hmul|].
      rewrite <- app_assoc. reflexivity.
    + right. exists (RaisedOther m), (events_of f ++ ev).
      split; [discriminate|]. split; [exact Hmul|].
      rewrite <- app_assoc. reflexivity.
  - intros r' h' params' Hlen' Hbind Hconn.
    rewrite count_and_commit_self in *.
    assert (Hne' : items first <> []).
    { intros Hempty. apply Hne. unfold len in Hlen. rewrite Hempty in Hlen.
      destruct (items r); [reflexivity|discriminate Hlen]. }
    rewrite (write_accepted conn r' first
               (set_counter (_counter (self_of f) + 1) (self_of f))
               h' params'); simpl.
    + split; [reflexivity|].
      rewrite count_and_commit_self. simpl. rewrite Hcnt. lia.
    + rewrite <- Hmod. exact Herr.
    + exact Hfirst.
    + exact Hne'.
    + congruence.
    + exact Hopen.
    + exact Hbind.
    + exact Hconn.
Qed.

Lemma rejected_row_warns_witness :
  filter is_warning
    (events_of (write Sample.rejecting_rows Sample.row_xy
                  (Sample.entered "qmark" defaults) [])) =
    [Warned ("constraint failed" ++ " while inserting row " ++
             text Sample.row_xy)%string] /\
  _counter (self_of (write Sample.rejecting_rows Sample.row_xy
                       (Sample.entered "qmark" defaults) [])) = 0 + 1.
Proof.
  pose proof (rejected_row_warns Sample.rejecting_rows Sample.row_xy
                (Sample.entered "qmark" defaults) []
                (Some "INSERT INTO t VALUES (?, ?)"%string)
                [Unchanged Sample.text_a; StrForm "127.0.0.1"]
                "constraint failed") as H.
  destruct H as (Hwarn & Hcount & _).
  - reflexivity.
  - vm_compute. discriminate.
  - discriminate.
  - vm_compute. left. reflexivity.
  - split; [exact Hwarn | exact Hcount].
Defined.

(** C8 as stated fails when the rejected row completes a batch and the
    commit that is due fails: the warning is given, and the call raises. *)
Lemma rejected_row_commit_raises :
  let out := write Sample.rejecting Sample.row_xy
               (Sample.entered "qmark" Sample.every_row) [] in
  events_of out =
    [ Called (cursor_execute (Some "INSERT INTO t VALUES (?, ?)"%string)
                (Some [Unchanged Sample.text_a; StrForm "127.0.0.1"]))
             (RaisedError "constraint failed");
      Warned "constraint failed while inserting row Row(x='a', y=IPv4Address('127.0.0.1'))";
      Called connection_commit (RaisedError "cannot commit") ] /\
  result_of out = Raise (Error "cannot commit").
Proof. vm_compute. split; reflexivity. Qed.

(** ** Commits *)

Lemma div_step (c k : Z) :
  0 <= c -> 1 <= k ->
  (c + 1) / k = c / k + (if (c + 1) mod k =? 0 then 1 else 0).
Proof.
  intros Hc Hk.
  pose proof (Z.div_mod c k ltac:(lia)) as Hdm.
  pose proof (Z.mod_pos_bound c k ltac:(lia)) as Hb.
  destruct (Z.eq_dec (c mod k + 1) k) as [Heq|Hneq].
  - assert (Hq : (c + 1) / k = c / k + 1)
      by (symmetry; apply (Z.div_unique (c + 1) k (c / k + 1) 0); lia).
    assert (Hr : (c + 1) mod k = 0)
      by (symmetry; apply (Z.mod_unique (c + 1) k (c / k + 1) 0); lia).
    rewrite Hq, Hr. reflexivity.
  - assert (Hq : (c + 1) / k = c / k)
      by (symmetry; apply (Z.div_unique (c + 1) k (c / k) (c mod k + 1)); lia).
    assert (Hr : (c + 1) mod k = c mod k + 1)
      by (symmetry; apply (Z.mod_unique (c + 1) k (c / k) (c mod k + 1)); lia).
    rewrite Hq, Hr.
    destruct (c mod k + 1 =? 0) eqn:Hz; [apply Z.eqb_eq in Hz; lia|lia].
Qed.

Lemma count_cons p (e : event) (tr : list event) :
  count p (e :: tr) = (if p e then 1 else 0) + count p tr.
Proof. unfold count. simpl. destruct (p e); simpl length; lia. Qed.

Lemma count_nil p : count p [] = 0.
Proof. reflexivity. Qed.

(** What lines 247-250 add to the tallies. *)
Lemma count_and_commit_tally (conn : driver) (s : SQLTarget) (h : list event) :
  1 <= commit s ->
  let out := count_and_commit conn s h in
  count is_commit (events_of out) =
    (if (_counter s + 1) mod commit s =? 0 then 1 else 0) /\
  count is_ddl_done (events_of out) = 0 /\
  count is_attempted (events_of out) = 0 /\
  count is_closed (events_of out) = 0.
Proof.
  intros Hk out. subst out. rewrite count_and_commit_run. simpl.
  destruct (commit s =? 0) eqn:Hz; [apply Z.eqb_eq in Hz; lia|].
  destruct ((_counter s + 1) mod commit s =? 0); simpl; repeat split.
Qed.

(** The tallies of one [write]: the counter grows by the INSERTs attempted,
    and the commits are those that follow a DROP or CREATE, plus one each
    time the counter reaches a multiple of the threshold. *)
Lemma write_tally (conn : driver) (r : row) (s : SQLTarget) (h : list event) :
  Error_class (db_module s) = true ->
  1 <= commit s ->
  0 <= _counter s ->
  let out := write conn r s h in
  _counter (self_of out) = _counter s + count is_attempted (events_of out) /\
  0 <= count is_attempted (events_of out) /\
  count is_commit (events_of out) =
    count is_ddl_done (events_of out) +
    (_counter (self_of out) / commit s - _counter s / commit s) /\
  count is_closed (events_of out) = 0.
Proof.
  intros Herr Hk Hc out. subst out.
  pose proof (first_row_handling_keeps conn r s h)
    as (Hcfg & Hcnt & _ & Hddl & Hbal).
  destruct (ddl_events_counts _ Hddl) as (Hatt & Hclo & _).
  destruct Hcfg as (_ & _ & Hcom & _).
  destruct (write_cases conn r s h Herr)
    as [(e & _ & Hw)|(_ & t & Hphase & Hw)];
    rewrite Hw; simpl.
  { rewrite Hatt, Hclo, Hcnt, Hbal. repeat split; lia. }
  set (f := first_row_handling conn r s h) in *.
  rewrite !count_app, Hatt, Hclo, Hbal.
  assert (Hk' : 1 <= commit (self_of f)) by (rewrite <- Hcom; exact Hk).
  destruct Hphase as [e Hb Ht|ps e Hb Hc' Ht|ps msg Hb Hc' Ho Ht
                     |ps ev Hb Hc' Ho Hev Ht|ps msg ev Hb Hc' Ho Hev Ht];
    subst t; simpl events_of; simpl self_of.
  - rewrite !count_nil, Hcnt. repeat split; lia.
  - rewrite !count_nil, Hcnt. repeat split; lia.
  - rewrite !count_cons, !count_nil, Hcnt. simpl. repeat split; lia.
  - subst ev.
    destruct (count_and_commit_tally conn (self_of f)
                ((h ++ events_of f) ++
                 [Called (cursor_execute (_insert (self_of f)) (Some ps))
                         Returned]) Hk')
      as (T1 & T2 & T3 & T4).
    rewrite !count_app, !count_cons, !count_nil, T1, T2, T3, T4.
    rewrite count_and_commit_self. simpl.
    rewrite Hcnt, <- Hcom, (div_step (_counter s) (commit s) Hc Hk).
    repeat split; lia.
  - subst ev.
    destruct (count_and_commit_tally conn (self_of f)
                ((h ++ events_of f) ++
                 [Called (cursor_execute (_insert (self_of f)) (Some ps))
                         (RaisedError msg);
                  Warned (msg ++ " while inserting row " ++ text r)%string])
                Hk')
      as (T1 & T2 & T3 & T4).
    rewrite !count_app, !count_cons, !count_nil, T1, T2, T3, T4.
    rewrite count_and_commit_self. simpl.
    rewrite Hcnt, <- Hcom, (div_step (_counter s) (commit s) Hc Hk).
    repeat split; lia.
Qed.

(** The same tallies over any number of rows. *)
Lemma writes_tally (conn : driver) (rows : list row) :
  forall (s : SQLTarget) (h : list event),
  Error_class (db_module s) = true ->
  1 <= commit s ->
  0 <= _counter s ->
  let out := writes conn rows s h in
  commit (self_of out) = commit s /\
  _cursor (self_of out) = _cursor s /\
  _counter (self_of out) = _counter s + count is_attempted (events_of out) /\
  0 <= count is_attempted (events_of out) /\
  count is_commit (events_of out) =
    count is_ddl_done (events_of out) +
    (_counter (self_of out) / commit s - _counter s / commit s) /\
  count is_closed (events_of out) = 0.
Proof.
  induction rows as [|r rows IH]; intros s h Herr Hk Hc; simpl.
  - rewrite !count_nil. repeat split; lia.
  - unfold bind, attempt.
    destruct (write_tally conn r s h Herr Hk Hc) as (W1 & W2 & W3 & W4).
    destruct (write_keeps_config conn r s h Herr)
      as ((Hmod & _ & Hcom & _) & Hcur).
    destruct (write conn r s h) as [s1 ev1 res1]; simpl in *.
    assert (Herr1 : Error_class (db_module s1) = true) by congruence.
    assert (Hk1 : 1 <= commit s1) by congruence.
    assert (Hc1 : 0 <= _counter s1) by lia.
    destruct (IH s1 (h ++ ev1) Herr1 Hk1 Hc1) as (I1 & I2 & I3 & I4 & I5 & I6).
    destruct (writes conn rows s1 (h ++ ev1)) as [s2 ev2 res2]; simpl in *.
    rewrite !count_app. rewrite <- Hcom in I5.
    repeat split; try congruence; lia.
Qed.

(** Closing: a commit is issued exactly when the cursor close returned. *)
Lemma exit_tally (conn : driver) (s : SQLTarget) (h : list event) :
  _cursor s = true ->
  let out := __exit__ conn s h in
  count is_commit (events_of out) = count is_closed (events_of out) /\
  count is_ddl_done (events_of out) = 0 /\
  count is_attempted (events_of out) = 0.
Proof.
  intros Hcur out. subst out.
  unfold __exit__, on_cursor, bind, get, modify, invoke, raise. simpl.
  rewrite Hcur. simpl. rewrite !app_nil_r.
  destruct (conn h cursor_close); simpl; repeat split.
Qed.

Lemma enter_run (conn : driver) (s : SQLTarget) (h : list event) :
  __enter__ conn s h =
  match conn h connection_cursor with
  | Returned =>
      Run (set_cursor true s) [Called connection_cursor Returned] (Ok tt)
  | RaisedError msg =>
      Run s [Called connection_cursor (RaisedError msg)] (Raise (Error msg))
  | RaisedOther msg =>
      Run s [Called connection_cursor (RaisedOther msg)]
          (Raise (OtherException msg))
  end.
Proof.
  unfold __enter__, bind, invoke, modify.
  destruct (conn h connection_cursor); reflexivity.
Qed.

(** The caller of [writes] catches whatever a [write] raises. *)
Lemma writes_returns (conn : driver) (rows : list row) :
  forall (s : SQLTarget) (h : list event),
  result_of (writes conn rows s h) = Ok tt.
Proof.
  induction rows as [|r rows IH]; intros s h; simpl; [reflexivity|].
  unfold bind, attempt.
  destruct (write conn r s h) as [s1 ev1 res1].
  specialize (IH s1 (h ++ ev1)).
  destruct (writes conn rows s1 (h ++ ev1)) as [s2 ev2 res2].
  exact IH.
Qed.

(** C1 (amended): in every session of a writer that [__init__] accepted,
    apart from the commit that follows each DROP and CREATE the backend
    executed, a commit is issued once for every [commit] INSERTs attempted,
    that is each time the row counter reaches a positive multiple of the
    threshold; and the close of the session adds exactly one commit, full
    batch or not, provided the cursor close returns. *)
Theorem commits_of_a_session (conn : driver) (module : db_module_t)
  (tbl : string) (o : options) (t : SQLTarget) (rows : list row)
  (h : list event) :
  __init__ module tbl o = Ok t ->
  let body := (__enter__ conn ;; writes conn rows) t h in
  let out := session conn rows t h in
  count is_commit (events_of body) =
    count is_ddl_done (events_of body) +
    count is_attempted (events_of body) / commit t /\
  count is_commit (events_of out) =
    count is_ddl_done (events_of out) +
    count is_attempted (events_of out) / commit t +
    count is_closed (events_of out).
Proof.
  intros Hinit body out. subst body out.
  unfold __init__ in Hinit.
  destruct (paramstyle module) as [style|] eqn:Hstyle; [|discriminate Hinit].
  destruct (Error_class module) eqn:Herr; simpl in Hinit; [|discriminate Hinit].
  destruct (opt_commit o <? 1) eqn:Hlt; [discriminate Hinit|].
  inversion Hinit as [Ht]. apply Z.ltb_ge in Hlt. clear Hinit.
  set (t0 := attributes module tbl o).
  assert (Hk : 1 <= commit t0) by exact Hlt.
  pose proof (enter_run conn t0 h) as Henter.
  unfold session.
  destruct (conn h connection_cursor) as [|msg|msg] eqn:Hopen.
  2,3: rewrite !(bind_raise _ _ _ _ _ _ _ Henter); simpl;
       rewrite !count_cons, !count_nil; simpl;
       rewrite Z.div_0_l by lia; split; reflexivity.
  rewrite !(bind_ok _ _ _ _ _ _ _ Henter). simpl.
  destruct (writes_tally conn rows (set_cursor true t0)
              (h ++ [Called connection_cursor Returned]) Herr Hk
              ltac:(simpl; lia))
    as (I1 & I2 & I3 & I4 & I5 & I6).
  simpl in I1, I2, I3, I5.
  pose proof (writes_returns conn rows (set_cursor true t0)
                (h ++ [Called connection_cursor Returned])) as Hret.
  destruct (writes conn rows (set_cursor true t0)
              (h ++ [Called connection_cursor Returned]))
    as [s1 ev1 res1] eqn:Hw.
  simpl in *. subst res1.
  rewrite (bind_ok _ _ _ _ _ _ _ Hw). simpl.
  destruct (exit_tally conn s1
              ((h ++ [Called connection_cursor Returned]) ++ ev1) I2)
    as (E1 & E2 & E3).
  destruct (__exit__ conn s1
              ((h ++ [Called connection_cursor Returned]) ++ ev1))
    as [s2 ev2 res2]; simpl in *.
  rewrite !count_cons, !count_app. simpl.
  rewrite I5, I3, I6, E1, E2, E3, !Z.add_0_l, !Z.add_0_r, Z.div_0_l by lia.
  rewrite Z.sub_0_r.
  split; reflexivity.
Qed.

Lemma commits_of_a_session_witness :
  count is_commit
    (events_of (session Sample.rejecting_rows
                  [Sample.row_xy; Sample.row_3; Sample.row_xy]
                  (Sample.writer "qmark" Sample.in_pairs) [])) =
  count is_ddl_done
    (events_of (session Sample.rejecting_rows
                  [Sample.row_xy; Sample.row_3; Sample.row_xy]
                  (Sample.writer "qmark" Sample.in_pairs) [])) +
  count is_attempted
    (events_of (session Sample.rejecting_rows
                  [Sample.row_xy; Sample.row_3; Sample.row_xy]
                  (Sample.writer "qmark" Sample.in_pairs) [])) / 2 +
  count is_closed
    (events_of (session Sample.rejecting_rows
                  [Sample.row_xy; Sample.row_3; Sample.row_xy]
                  (Sample.writer "qmark" Sample.in_pairs) [])).
Proof.
  exact (proj2 (commits_of_a_session Sample.rejecting_rows
                  (Sample.module "qmark") "t" Sample.in_pairs
                  (Sample.writer "qmark" Sample.in_pairs)
                  [Sample.row_xy; Sample.row_3; Sample.row_xy] [] eq_refl)).
Defined.

(** C1 as stated fails as soon as the writer manages the table: with
    create-table requested, a commit follows the CREATE while the counter is
    still zero, so a session of one row commits twice, where one attempted
    row and a threshold of 1000 allow the final commit only. *)
Lemma create_commits_too :
  let out := session Sample.accepting [Sample.row_xy]
               (Sample.writer "qmark" Sample.create_only) [] in
  __init__ (Sample.module "qmark") "t" Sample.create_only =
    Ok (Sample.writer "qmark" Sample.create_only) /\
  calls_of (events_of out) =
    [ connection_cursor;
      cursor_execute
        (Some "CREATE TABLE t (x VARCHAR(1000), y VARCHAR(53))"%string) None;
      connection_commit;
      cursor_execute (Some "INSERT INTO t VALUES (?, ?)"%string)
                     (Some [Unchanged Sample.text_a; StrForm "127.0.0.1"]);
      cursor_close;
      connection_commit ] /\
  count is_commit (events_of out) = 2 /\
  count is_attempted (events_of out) /
    commit (Sample.writer "qmark" Sample.create_only) + 1 = 1.
Proof. vm_compute. repeat split; reflexivity. Qed.

(** * Further properties *)

(** ** Construction *)

(** X1: the constructor accepts a module exactly when it has a paramstyle and
    an [Error] class and the threshold is at least one; a missing attribute
    is a [NameError] whatever the threshold is, and a threshold below one is
    a [ValueError]. *)
Theorem constructor_validates (m : db_module_t) (tbl : string) (o : options) :
  ((exists t, __init__ m tbl o = Ok t) <->
   paramstyle m <> None /\ Error_class m = true /\ 1 <= opt_commit o) /\
  (paramstyle m = None \/ Error_class m = false ->
   exists msg, __init__ m tbl o = Raise (NameError msg)) /\
  (paramstyle m <> None -> Error_class m = true -> opt_commit o < 1 ->
   exists msg, __init__ m tbl o = Raise (ValueError msg)).
Proof.
  unfold __init__.
  destruct (paramstyle m) as [style|]; destruct (Error_class m); simpl;
    destruct (Z.ltb_spec (opt_commit o) 1) as [Hlt|Hge];
    (split; [split|split]);
    try solve [ intros (t & Ht); discriminate Ht
              | intros (H1 & H2 & H3); congruence || lia
              | intros (H1 & H2 & H3); eauto
              | intros [H|H]; discriminate H || eauto
              | intros; eauto
              | intros; congruence
              | intros; lia
              | intros _; repeat split; congruence || lia ].
Qed.

(** X2: the type map of a constructed writer has an entry for each of the
    thirteen classes of lines 102-114 and for no other class; a [Url] gets the
    string column type, and the four IP address classes share the IP column
    type. *)
Theorem type_map_covers_known_classes (m : db_module_t) (tbl : string)
  (o : options) (t : SQLTarget) :
  __init__ m tbl o = Ok t ->
  (forall c, In c known_classes -> exists ty, getitem (type_map t) c = Ok ty) /\
  (forall c, ~ In c known_classes ->
             getitem (type_map t) c = Raise (KeyError_type c)) /\
  getitem (type_map t) Url = Ok (str_type o) /\
  (forall c, In c [IPv4Address; IPv6Address; IPv4Port; IPv6Port] ->
             getitem (type_map t) c = Ok (ip_type o)).
Proof.
  intros Hinit. unfold __init__ in Hinit.
  destruct (paramstyle m); [|discriminate Hinit].
  destruct (negb (Error_class m)); [discriminate Hinit|].
  destruct (opt_commit o <? 1); [discriminate Hinit|].
  inversion Hinit; subst t. clear Hinit.
  split; [|split; [|split]].
  - intros c Hc. simpl in Hc.
    repeat (destruct Hc as [Hc|Hc]; [subst c; eexists; reflexivity|]).
    contradiction.
  - intros c Hc. destruct c; try (exfalso; apply Hc; simpl; tauto).
    reflexivity.
  - reflexivity.
  - intros c Hc. simpl in Hc.
    repeat (destruct Hc as [Hc|Hc]; [subst c; reflexivity|]).
    contradiction.
Qed.

Lemma type_map_covers_known_classes_witness :
  getitem (type_map (Sample.writer "qmark" defaults)) Url =
    Ok "VARCHAR(1000)"%string /\
  getitem (type_map (Sample.writer "qmark" defaults)) (py_other "NoneType") =
    Raise (KeyError_type (py_other "NoneType")).
Proof.
  destruct (type_map_covers_known_classes (Sample.module "qmark") "t" defaults
              (Sample.writer "qmark" defaults) eq_refl)
    as (_ & Hmiss & Hurl & _).
  split; [exact Hurl|].
  apply Hmiss. simpl. intuition discriminate.
Defined.

(** ** Statement texts *)

Lemma comprehension_all_ok {A B} (f : A -> result B) (l : list A) :
  (forall x, In x l -> exists b, f x = Ok b) ->
  exists bs, comprehension f l = Ok bs /\ length bs = length l.
Proof.
  induction l as [|a l IH]; intros H.
  - exists []. split; reflexivity.
  - destruct (H a (or_introl eq_refl)) as (b & Hb).
    destruct IH as (bs & Hbs & Hlen); [intros x Hx; apply H; right; exact Hx|].
    exists (b :: bs). unfold comprehension; fold (@comprehension A B).
    rewrite Hb. simpl. rewrite Hbs. simpl. split; [reflexivity|congruence].
Qed.

(** X3: for a row with one field name per value, the CREATE TABLE text can be
    built exactly when the class of every value has an entry in the type map;
    otherwise building it raises and nothing is sent to the cursor. *)
Theorem create_text_needs_every_class (types : list (pytype * string))
  (tbl : string) (r : row) :
  length (field_names r) = len r ->
  ((exists sql, create_text types tbl r = Ok sql) <->
   (forall v, In v (items r) -> exists ty, getitem types (type_ v) = Ok ty)).
Proof.
  intros Hlen. split.
  - intros (sql & Hsql) v Hv.
    destruct (getitem types (type_ v)) as [ty|e] eqn:Hget; [eauto|].
    destruct (create_text_unmapped types tbl r v Hlen Hv) as (e' & He').
    + intros ty Hty. congruence.
    + congruence.
  - intros Hall. unfold create_text.
    destruct (comprehension_all_ok
                (fun '(name, v) =>
                   rbind (getitem types (type_ v))
                         (fun type => Ok (name ++ " " ++ type)%string))
                (combine (field_names r) (items r))) as (fields & Hf & _).
    + intros [name v] Hin. apply in_combine_r in Hin.
      destruct (Hall v Hin) as (ty & Hty). rewrite Hty. simpl. eauto.
    + rewrite Hf. simpl. eauto.
Qed.

Lemma create_text_needs_every_class_witness :
  (exists sql, create_text (type_map (Sample.writer "qmark" defaults)) "t"
                 Sample.row_xy = Ok sql) <->
  (forall v, In v (items Sample.row_xy) ->
             exists ty, getitem (type_map (Sample.writer "qmark" defaults))
                          (type_ v) = Ok ty).
Proof.
  apply (create_text_needs_every_class
           (type_map (Sample.writer "qmark" defaults)) "t" Sample.row_xy).
  reflexivity.
Defined.

Lemma to_uint_not_nil (n : nat) : Nat.to_uint n <> Decimal.Nil.
Proof.
  intros H. pose proof (DecimalNat.Unsigned.of_to n) as Hn.
  rewrite H in Hn. simpl in Hn. subst n. discriminate H.
Qed.

Lemma pct_d_injective (n m : nat) : pct_d n = pct_d m -> n = m.
Proof.
  unfold pct_d. intros H.
  apply DecimalNat.Unsigned.to_uint_inj.
  pose proof (NilZero.usu (Nat.to_uint n) (to_uint_not_nil n)) as Hn.
  pose proof (NilZero.usu (Nat.to_uint m) (to_uint_not_nil m)) as Hm.
  rewrite H in Hn. congruence.
Qed.

Lemma append_injective (p a b : string) :
  (p ++ a)%string = (p ++ b)%string -> a = b.
Proof.
  induction p as [|c p IH]; intros H.
  - exact H.
  - change (String c (p ++ a)%string = String c (p ++ b)%string) in H.
    inversion H. auto.
Qed.

(** X4: a row without [_fields] gets the column names [field1], [field2],
    ... in order, one per value and all different. *)
Theorem synthesized_names_distinct (r : row) :
  _fields r = None ->
  length (field_names r) = len r /\
  NoDup (field_names r) /\
  forall i, (i < len r)%nat ->
            nth_error (field_names r) i =
            Some ("field" ++ pct_d (i + 1)%nat)%string.
Proof.
  intros Hplain. unfold field_names. rewrite Hplain.
  split; [|split].
  - rewrite length_map, length_seq. reflexivity.
  - apply Finite.Injective_map_NoDup; [|apply seq_NoDup].
    intros i j H. apply append_injective, pct_d_injective in H. lia.
  - intros i Hi. rewrite nth_error_map, nth_error_seq.
    destruct (Nat.ltb_spec i (len r)); [reflexivity|lia].
Qed.

Lemma synthesized_names_distinct_witness :
  length (field_names Sample.row_3) = len Sample.row_3 /\
  NoDup (field_names Sample.row_3).
Proof.
  destruct (synthesized_names_distinct Sample.row_3 eq_refl) as (Hlen & Hnd & _).
  split; [exact Hlen | exact Hnd].
Defined.

(** X5: with the two positional styles without numbers the INSERT text
    depends on the number of fields only: it lists that many [?] for [qmark]
    and that many [%s] for [format]. *)
Theorem positional_statement (m : db_module_t) (tbl style : string) (r : row) :
  paramstyle m = Some style ->
  style = "qmark"%string \/ style = "format"%string ->
  insert_text m tbl r =
  Ok ("INSERT INTO " ++ tbl ++ " VALUES (" ++
      String.concat ", "
        (repeat (if String.eqb style "qmark" then "?" else "%s")%string
                (length (field_names r))) ++
      ")")%string.
Proof.
  intros Hstyle Hpos.
  rewrite (insert_text_supported m tbl r style Hstyle)
    by (destruct Hpos; subst style; reflexivity).
  rewrite (map_ext (rendered style)
             (fun _ => (if String.eqb style "qmark" then "?" else "%s")%string))
    by (intros [i name]; destruct Hpos; subst style; reflexivity).
  rewrite map_const. unfold enumerate.
  rewrite length_combine, length_seq, Nat.min_id. reflexivity.
Qed.

Lemma positional_statement_witness :
  insert_text (Sample.module "format") "t" Sample.row_3 =
  Ok "INSERT INTO t VALUES (%s, %s, %s)"%string.
Proof.
  exact (positional_statement (Sample.module "format") "t" "format"
           Sample.row_3 eq_refl (or_intror eq_refl)).
Defined.

(** ** Traces of [write] *)

Lemma insert_text_error (m : db_module_t) (tbl : string) (r : row) :
  insert_text m tbl r <> Raise ZeroDivisionError.
Proof.
  unfold insert_text. intros H.
  destruct (comprehension _ _) as [values|e] eqn:Hc; simpl in H;
    [discriminate H|].
  inversion H; subst.
  destruct (comprehension_raise_inv _ _ _ Hc) as ([i name] & _ & Hx).
  unfold module_paramstyle, placeholder in Hx.
  destruct (paramstyle m) as [style|]; simpl in Hx; [|discriminate Hx].
  repeat match type of Hx with
         | (if ?b then _ else _) = _ => destruct b; [discriminate Hx|]
         end.
  discriminate Hx.
Qed.

Lemma create_text_error (types : list (pytype * string)) (tbl : string)
  (r : row) :
  create_text types tbl r <> Raise ZeroDivisionError.
Proof.
  unfold create_text. intros H.
  destruct (comprehension _ _) as [fields|e] eqn:Hc; simpl in H;
    [discriminate H|].
  inversion H; subst.
  destruct (comprehension_raise_inv _ _ _ Hc) as ([name v] & _ & Hx).
  destruct (getitem types (type_ v)) as [ty|e] eqn:Hget; simpl in Hx;
    [discriminate Hx|].
  apply getitem_error in Hget. congruence.
Qed.

Ltac more_leaf :=
  first
    [ reflexivity
    | intros _; reflexivity
    | intros H; congruence
    | intros H; inversion H; fail
    | intros H; inversion H; subst;
      match goal with
      | E : insert_text _ _ _ = Raise ZeroDivisionError |- _ =>
          exact (insert_text_error _ _ _ E)
      | E : create_text _ _ _ = Raise ZeroDivisionError |- _ =>
          exact (create_text_error _ _ _ E)
      | E : getitem _ _ = Raise ZeroDivisionError |- _ =>
          apply getitem_error in E; discriminate E
      end
    | intros _ _; eexists; split; [eassumption|reflexivity]
    | intros H; discriminate H
    | intros _ H; congruence ].

Lemma first_row_handling_more (conn : driver) (r : row) (s : SQLTarget)
  (h : list event) :
  truthy (_first_row s) = false ->
  first_row_more r s (first_row_handling conn r s h).
Proof.
  intros Hfresh.
  unfold first_row_handling.
  unfold _generate_statement, _drop_table, _create_table, on_cursor,
    except_Error, bind, get, modify, lift, emit, invoke, raise, ret,
    insert_statement, create_statement, drop_statement.
  rewrite Hfresh. tidy.
  repeat split_run.
  all: constructor; unfold create_statement; tidy.
  all: more_leaf.
Qed.

(** The events of a [write]: those of the first-row handling, none when a
    first row is on record, then those of the INSERT. *)
Lemma write_trace (conn : driver) (r : row) (s : SQLTarget) (h : list event) :
  Error_class (db_module s) = true ->
  exists ddl tail,
    events_of (write conn r s h) = ddl ++ tail /\
    forallb is_ddl_event ddl = true /\
    (truthy (_first_row s) = true -> ddl = []) /\
    (_cursor s = false -> ddl = [] /\ tail = []) /\
    insert_trace (_insert (self_of (write conn r s h))) r tail.
Proof.
  intros Herr.
  pose proof (first_row_handling_keeps conn r s h) as (_ & _ & Hcur & Hddl & _).
  assert (Hfixed : truthy (_first_row s) = true ->
                   events_of (first_row_handling conn r s h) = []).
  { intros Htruthy. destruct (truthy_some _ Htruthy) as (first & Hfirst & _).
    rewrite (first_row_handling_fixed conn r first s h Hfirst Htruthy).
    destruct (negb _); reflexivity. }
  assert (Hclosed : _cursor s = false ->
                    events_of (first_row_handling conn r s h) = []).
  { intros Hc. destruct (truthy (_first_row s)) eqn:Htruthy; [auto|].
    destruct (first_row_handling_more conn r s h Htruthy) as [_ Hno _ _]. auto. }
  destruct (write_cases conn r s h Herr)
    as [(e & _ & Hw)|(_ & t & Hphase & Hw)]; rewrite Hw; simpl.
  - exists (events_of (first_row_handling conn r s h)), [].
    rewrite app_nil_r. repeat split; auto. constructor.
  - exists (events_of (first_row_handling conn r s h)), (events_of t).
    destruct (insert_phase_keeps _ _ _ _ _ Hphase) as (_ & _ & Hins & _ & _).
    rewrite Hins. repeat split; auto.
    + destruct Hphase as [e Hb Ht|ps e Hb Hc Ht|ps msg Hb Hc Ho Ht
                         |ps ev Hb Hc Ho Hev Ht|ps msg ev Hb Hc Ho Hev Ht];
        subst t; simpl; try reflexivity; congruence.
    + destruct Hphase as [e Hb Ht|ps e Hb Hc Ht|ps msg Hb Hc Ho Ht
                         |ps ev Hb Hc Ho Hev Ht|ps msg ev Hb Hc Ho Hev Ht];
        subst t; simpl; try subst ev; simpl.
      * constructor.
      * constructor.
      * constructor.
      * apply insert_accepted. apply count_and_commit_events.
      * apply insert_rejected. apply count_and_commit_events.
Qed.

(** What holds of every [write] holds of any number of them. *)
Lemma writes_invariant (conn : driver) (I : SQLTarget -> Prop)
  (P : list event -> Prop) :
  P [] ->
  (forall a b, P a -> P b -> P (a ++ b)) ->
  (forall r s h, I s ->
                 I (self_of (write conn r s h)) /\
                 P (events_of (write conn r s h))) ->
  forall rows s h,
    I s ->
    I (self_of (writes conn rows s h)) /\ P (events_of (writes conn rows s h)).
Proof.
  intros Hnil Happ Hstep.
  induction rows as [|r rows IH]; intros s h Hs; simpl.
  - auto.
  - unfold bind, attempt.
    destruct (Hstep r s h Hs) as (Hs1 & Hp1).
    destruct (write conn r s h) as [s1 ev1 res1]; simpl in *.
    destruct (IH s1 (h ++ ev1) Hs1) as (Hs2 & Hp2).
    destruct (writes conn rows s1 (h ++ ev1)) as [s2 ev2 res2]; simpl in *.
    auto.
Qed.

Lemma count_zero_app p (a b : list event) :
  count p a = 0 -> count p b = 0 -> count p (a ++ b) = 0.
Proof. intros Ha Hb. rewrite count_app. lia. Qed.

Lemma ddl_events_more (tr : list event) :
  forallb is_ddl_event tr = true ->
  count is_rejected tr = 0 /\ count is_warning tr = 0 /\
  count is_cursor_call tr = 0 /\ count is_close_call tr = 0 /\
  inserted tr = [].
Proof.
  induction tr as [|e tr IH]; simpl; [repeat split|].
  intros H. apply andb_prop in H. destruct H as [He Htr].
  destruct (IH Htr) as (H1 & H2 & H3 & H4 & H5).
  rewrite !count_cons, H1, H2, H3, H4.
  destruct e as [c o|msg]; [|discriminate He].
  destruct c as [| |sql [params|]|]; try discriminate He;
    destruct o; simpl; auto.
Qed.

Lemma insert_trace_counts (q : option string) (r : row) (tr : list event) :
  insert_trace q r tr ->
  count is_warning tr = count is_rejected tr /\
  count is_cursor_call tr = 0 /\ count is_close_call tr = 0 /\
  count is_plain_execute tr = 0 /\
  Forall (fun sql => sql = q) (inserted tr).
Proof.
  intros [|ps msg|ps cc [Hcc|(o & Hcc)]|ps msg cc [Hcc|(o & Hcc)]];
    try subst cc; simpl; rewrite ?count_cons, ?count_nil; simpl;
    repeat split; auto.
Qed.

Lemma inserted_app (a b : list event) :
  inserted (a ++ b) = inserted a ++ inserted b.
Proof.
  induction a as [|e a IH]; [reflexivity|].
  destruct e as [[| |sql [params|]|] o|msg]; simpl; rewrite ?IH; reflexivity.
Qed.

(** ** Rows of another width *)

(** X6: once a non-empty first row is on record, a row of another width is
    refused with a [TypeError] before anything is bound or sent to the
    driver, and the writer is exactly as before: a caller who catches the
    error and writes the next row gets what that row would have given
    anyway. *)
Theorem refused_row_leaves_no_trace (conn : driver) (r r' first : row)
  (s : SQLTarget) (h : list event) :
  _first_row s = Some first ->
  items first <> [] ->
  len r <> len first ->
  write conn r s h =
    Run s [] (Raise (TypeError "Rows must have the same number of elements")) /\
  (attempt (write conn r) ;; write conn r') s h = write conn r' s h.
Proof.
  intros Hfirst Hne Hlen.
  pose proof (write_width_mismatch conn r first s h Hfirst Hne Hlen) as Hw.
  split; [exact Hw|].
  unfold bind, attempt. rewrite Hw. simpl. rewrite app_nil_r.
  destruct (write conn r' s h). reflexivity.
Qed.

Lemma refused_row_leaves_no_trace_witness :
  let s := self_of (write Sample.accepting Sample.row_xy
                      (Sample.entered "qmark" defaults) []) in
  write Sample.accepting Sample.row_3 s [] =
    Run s [] (Raise (TypeError "Rows must have the same number of elements")) /\
  (attempt (write Sample.accepting Sample.row_3) ;;
   write Sample.accepting Sample.row_xy) s [] =
  write Sample.accepting Sample.row_xy s [].
Proof.
  apply (refused_row_leaves_no_trace Sample.accepting Sample.row_3
           Sample.row_xy Sample.row_xy
           (self_of (write Sample.accepting Sample.row_xy
                       (Sample.entered "qmark" defaults) [])) []).
  - reflexivity.
  - discriminate.
  - vm_compute. discriminate.
Defined.

(** ** The statement of a session *)

(** X7: once a non-empty first row is on record, every INSERT that any
    number of further [write] calls send to the cursor carries the text
    built from that first row, whatever the rows are and whatever the driver
    answers. *)
Theorem every_row_same_statement (conn : driver) (rows : list row)
  (s : SQLTarget) (h : list event) :
  Error_class (db_module s) = true ->
  truthy (_first_row s) = true ->
  Forall (fun sql => sql = _insert s)
         (inserted (events_of (writes conn rows s h))).
Proof.
  intros Herr Htruthy.
  apply (writes_invariant conn
           (fun s' => Error_class (db_module s') = true /\
                      truthy (_first_row s') = true /\
                      _insert s' = _insert s)
           (fun tr => Forall (fun sql => sql = _insert s) (inserted tr))).
  - constructor.
  - intros a b Ha Hb. rewrite inserted_app. apply Forall_app. auto.
  - intros r s' h' (Herr' & Htruthy' & Hins).
    destruct (write_keeps_plan conn r s' h' Herr' Htruthy') as (K1 & K2 & _).
    destruct (write_keeps_config conn r s' h' Herr') as ((Hm & _) & _).
    split; [repeat split; congruence|].
    destruct (write_trace conn r s' h' Herr')
      as (ddl & tail & Hev & _ & Hnil & _ & Htail).
    rewrite Hev, (Hnil Htruthy'). simpl.
    destruct (insert_trace_counts _ _ _ Htail) as (_ & _ & _ & _ & Hall).
    rewrite K2, Hins in Hall. exact Hall.
  - auto.
Qed.

Lemma every_row_same_statement_witness :
  let s := self_of (write Sample.accepting Sample.row_xy
                      (Sample.entered "named" defaults) []) in
  Forall (fun sql => sql = Some "INSERT INTO t VALUES (:x, :y)"%string)
         (inserted (events_of (writes Sample.rejecting_rows
                                 [Sample.row_xy; Sample.row_3; Sample.row_xy]
                                 s []))).
Proof.
  exact (every_row_same_statement Sample.rejecting_rows
           [Sample.row_xy; Sample.row_3; Sample.row_xy]
           (self_of (write Sample.accepting Sample.row_xy
                       (Sample.entered "named" defaults) [])) []
           eq_refl eq_refl).
Defined.

(** X8: once a non-empty first row is on record, no [write] executes a
    statement without parameters: the DROP and the CREATE belong to the first
    row alone. *)
Theorem tables_managed_once (conn : driver) (rows : list row)
  (s : SQLTarget) (h : list event) :
  Error_class (db_module s) = true ->
  truthy (_first_row s) = true ->
  count is_plain_execute (events_of (writes conn rows s h)) = 0.
Proof.
  intros Herr Htruthy.
  apply (writes_invariant conn
           (fun s' => Error_class (db_module s') = true /\
                      truthy (_first_row s') = true)
           (fun tr => count is_plain_execute tr = 0)).
  - reflexivity.
  - apply count_zero_app.
  - intros r s' h' (Herr' & Htruthy').
    destruct (write_keeps_plan conn r s' h' Herr' Htruthy') as (K1 & _ & _).
    destruct (write_keeps_config conn r s' h' Herr') as ((Hm & _) & _).
    split; [split; congruence|].
    destruct (write_trace conn r s' h' Herr')
      as (ddl & tail & Hev & _ & Hnil & _ & Htail).
    rewrite Hev, (Hnil Htruthy'). simpl.
    destruct (insert_trace_counts _ _ _ Htail) as (_ & _ & _ & Hplain & _).
    exact Hplain.
  - auto.
Qed.

Lemma tables_managed_once_witness :
  let first := write Sample.accepting Sample.row_xy
                 (Sample.entered "qmark" Sample.with_tables) [] in
  count is_plain_execute (events_of first) = 2 /\
  count is_plain_execute
    (events_of (writes Sample.accepting [Sample.row_xy; Sample.row_xy]
                  (self_of first) (events_of first))) = 0.
Proof.
  split; [reflexivity|].
  exact (tables_managed_once Sample.accepting [Sample.row_xy; Sample.row_xy]
           (self_of (write Sample.accepting Sample.row_xy
                       (Sample.entered "qmark" Sample.with_tables) []))
           (events_of (write Sample.accepting Sample.row_xy
                         (Sample.entered "qmark" Sample.with_tables) []))
           eq_refl eq_refl).
Defined.

(** ** Errors of the driver *)

(** X9: an INSERT that raises anything but the driver's [Error] is not turned
    into a warning: the exception leaves [write] as it is, it is the last
    thing the call did, the row is not counted and no commit follows. *)
Theorem other_exception_propagates (conn : driver) (r : row) (s : SQLTarget)
  (h : list event) (sql : option string) (params : list param) (msg : string) :
  Error_class (db_module s) = true ->
  In (Called (cursor_execute sql (Some params)) (RaisedOther msg))
     (events_of (write conn r s h)) ->
  result_of (write conn r s h) = Raise (OtherException msg) /\
  _counter (self_of (write conn r s h)) = _counter s /\
  count is_warning (events_of (write conn r s h)) = 0 /\
  exists before,
    events_of (write conn r s h) =
      before ++ [Called (cursor_execute sql (Some params)) (RaisedOther msg)] /\
    forallb is_ddl_event before = true.
Proof.
  intros Herr Hin.
  pose proof (first_row_handling_keeps conn r s h) as (_ & Hcnt & _ & Hddl & _).
  destruct (ddl_events_more _ Hddl) as (_ & Hwarn & _).
  destruct (write_cases conn r s h Herr) as [(e & _ & Hw)|(_ & t & Hphase & Hw)];
    rewrite Hw in *; simpl in *.
  - exfalso. exact (ddl_events_not_insert _ _ _ _ Hddl Hin).
  - apply in_app_or in Hin. destruct Hin as [Hin|Hin].
    + exfalso. exact (ddl_events_not_insert _ _ _ _ Hddl Hin).
    + destruct (insert_phase_insert _ _ _ _ _ _ _ _ Hphase Hin)
        as (Hsql & _ & _ & _ & Ht).
      simpl in Ht. subst t sql. simpl.
      rewrite count_app, Hwarn, count_cons, count_nil. simpl.
      repeat split; auto.
      eexists. split; [reflexivity|exact Hddl].
Qed.

Lemma other_exception_propagates_witness :
  result_of (write Sample.interrupted Sample.row_xy
               (Sample.entered "qmark" Sample.every_row) []) =
    Raise (OtherException "KeyboardInterrupt") /\
  _counter (self_of (write Sample.interrupted Sample.row_xy
                       (Sample.entered "qmark" Sample.every_row) [])) = 0.
Proof.
  destruct (other_exception_propagates Sample.interrupted Sample.row_xy
              (Sample.entered "qmark" Sample.every_row) []
              (Some "INSERT INTO t VALUES (?, ?)"%string)
              [Unchanged Sample.text_a; StrForm "127.0.0.1"]
              "KeyboardInterrupt")
    as (Hres & Hcnt & _).
  - reflexivity.
  - vm_compute. left. reflexivity.
  - split; [exact Hres | exact Hcnt].
Defined.

(** X10: over any number of [write] calls there are exactly as many warnings
    as INSERTs that raised the driver's [Error]: a rejected row warns once,
    and nothing else warns. *)
Theorem one_warning_per_rejected_row (conn : driver) (rows : list row)
  (s : SQLTarget) (h : list event) :
  Error_class (db_module s) = true ->
  count is_warning (events_of (writes conn rows s h)) =
  count is_rejected (events_of (writes conn rows s h)).
Proof.
  intros Herr.
  apply (writes_invariant conn
           (fun s' => Error_class (db_module s') = true)
           (fun tr => count is_warning tr = count is_rejected tr)).
  - reflexivity.
  - intros a b Ha Hb. rewrite !count_app. lia.
  - intros r s' h' Herr'.
    destruct (write_keeps_config conn r s' h' Herr') as ((Hm & _) & _).
    split; [congruence|].
    destruct (write_trace conn r s' h' Herr')
      as (ddl & tail & Hev & Hddl & _ & _ & Htail).
    destruct (ddl_events_more _ Hddl) as (H1 & H2 & _).
    destruct (insert_trace_counts _ _ _ Htail) as (H3 & _).
    rewrite Hev, !count_app. lia.
  - exact Herr.
Qed.

Lemma one_warning_per_rejected_row_witness :
  count is_warning
    (events_of (writes Sample.rejecting_rows
                  [Sample.row_xy; Sample.row_3; Sample.row_xy]
                  (Sample.entered "qmark" defaults) [])) =
  count is_rejected
    (events_of (writes Sample.rejecting_rows
                  [Sample.row_xy; Sample.row_3; Sample.row_xy]
                  (Sample.entered "qmark" defaults) [])).
Proof.
  exact (one_warning_per_rejected_row Sample.rejecting_rows
           [Sample.row_xy; Sample.row_3; Sample.row_xy]
           (Sample.entered "qmark" defaults) [] eq_refl).
Defined.

(** ** The counter *)

(** X11: inside a session of a constructed writer the counter is the number
    of INSERTs attempted since the session was entered, accepted or rejected
    by the driver; rows that were refused, or whose INSERT raised something
    else, are not in it. *)
Theorem counter_is_number_of_attempts (conn : driver) (m : db_module_t)
  (tbl : string) (o : options) (t : SQLTarget) (rows : list row)
  (h : list event) :
  __init__ m tbl o = Ok t ->
  let body := (__enter__ conn ;; writes conn rows) t h in
  _counter (self_of body) = count is_attempted (events_of body).
Proof.
  intros Hinit body. subst body.
  unfold __init__ in Hinit.
  destruct (paramstyle m) as [style|] eqn:Hstyle; [|discriminate Hinit].
  destruct (Error_class m) eqn:Herr; simpl in Hinit; [|discriminate Hinit].
  destruct (opt_commit o <? 1) eqn:Hlt; [discriminate Hinit|].
  inversion Hinit as [Ht]. apply Z.ltb_ge in Hlt. clear Hinit.
  set (t0 := attributes m tbl o).
  assert (Hk : 1 <= commit t0) by exact Hlt.
  pose proof (enter_run conn t0 h) as Henter.
  destruct (conn h connection_cursor) as [|msg|msg] eqn:Hopen.
  2,3: rewrite (bind_raise _ _ _ _ _ _ _ Henter); reflexivity.
  rewrite (bind_ok _ _ _ _ _ _ _ Henter). simpl.
  destruct (writes_tally conn rows (set_cursor true t0)
              (h ++ [Called connection_cursor Returned]) Herr Hk
              ltac:(simpl; lia))
    as (_ & _ & I3 & _).
  rewrite I3, count_cons. reflexivity.
Qed.

Lemma counter_is_number_of_attempts_witness :
  _counter (self_of ((__enter__ Sample.rejecting_rows ;;
                      writes Sample.rejecting_rows
                        [Sample.row_xy; Sample.row_3; Sample.row_xy])
                       (Sample.writer "qmark" defaults) [])) =
  count is_attempted
    (events_of ((__enter__ Sample.rejecting_rows ;;
                 writes Sample.rejecting_rows
                   [Sample.row_xy; Sample.row_3; Sample.row_xy])
                  (Sample.writer "qmark" defaults) [])).
Proof.
  exact (counter_is_number_of_attempts Sample.rejecting_rows
           (Sample.module "qmark") "t" defaults
           (Sample.writer "qmark" defaults)
           [Sample.row_xy; Sample.row_3; Sample.row_xy] [] eq_refl).
Defined.

(** ** Outside a session *)

(** X12: a writer without a cursor (before [__enter__], or after a close)
    never calls the driver: [write] raises without executing anything and
    without counting the row, and [__exit__] raises without committing and
    leaves the writer as it is. *)
Theorem nothing_called_without_cursor (conn : driver) (r : row)
  (s : SQLTarget) (h : list event) :
  Error_class (db_module s) = true ->
  _cursor s = false ->
  events_of (write conn r s h) = [] /\
  (exists e, result_of (write conn r s h) = Raise e) /\
  _counter (self_of (write conn r s h)) = _counter s /\
  exists e, __exit__ conn s h = Run s [] (Raise e).
Proof.
  intros Herr Hcur.
  destruct (write_trace conn r s h Herr)
    as (ddl & tail & Hev & _ & _ & Hnone & _).
  destruct (Hnone Hcur) as (Hddl & Htail). subst ddl tail.
  split; [exact Hev|].
  pose proof (first_row_handling_keeps conn r s h) as (_ & Hcnt & Hcur' & _).
  split; [|split].
  - destruct (write_cases conn r s h Herr)
      as [(e & Hres & Hw)|(_ & t & Hphase & Hw)]; rewrite Hw; simpl.
    + eauto.
    + destruct Hphase as [e Hb Ht|ps e Hb Hc Ht|ps msg Hb Hc Ho Ht
                         |ps ev Hb Hc Ho Hev' Ht|ps msg ev Hb Hc Ho Hev' Ht];
        subst t; simpl; eauto; congruence.
  - destruct (write_cases conn r s h Herr)
      as [(e & Hres & Hw)|(_ & t & Hphase & Hw)]; rewrite Hw; simpl.
    + exact Hcnt.
    + destruct Hphase as [e Hb Ht|ps e Hb Hc Ht|ps msg Hb Hc Ho Ht
                         |ps ev Hb Hc Ho Hev' Ht|ps msg ev Hb Hc Ho Hev' Ht];
        subst t; simpl; auto; congruence.
  - unfold __exit__, on_cursor, bind, get, raise. simpl. rewrite Hcur.
    eexists. reflexivity.
Qed.

Lemma nothing_called_without_cursor_witness :
  events_of (write Sample.accepting Sample.row_xy
               (Sample.writer "qmark" Sample.with_tables) []) = [] /\
  exists e, result_of (write Sample.accepting Sample.row_xy
                         (Sample.writer "qmark" Sample.with_tables) []) =
            Raise e.
Proof.
  destruct (nothing_called_without_cursor Sample.accepting Sample.row_xy
              (Sample.writer "qmark" Sample.with_tables) [] eq_refl eq_refl)
    as (Hev & Hres & _).
  split; [exact Hev | exact Hres].
Defined.

(** ** Whole sessions *)

Lemma exit_run (conn : driver) (s : SQLTarget) (h : list event) :
  _cursor s = true ->
  __exit__ conn s h =
  match conn h cursor_close with
  | Returned =>
      Run (set_counter 0
             (set_insert None
                (set_row_casts None (set_first_row None (set_cursor false s)))))
          [Called cursor_close Returned;
           Called connection_commit
                  (conn (h ++ [Called cursor_close Returned]) connection_commit)]
          match conn (h ++ [Called cursor_close Returned]) connection_commit with
          | Returned => Ok tt
          | RaisedError msg => Raise (Error msg)
          | RaisedOther msg => Raise (OtherException msg)
          end
  | RaisedError msg =>
      Run s [Called cursor_close (RaisedError msg)] (Raise (Error msg))
  | RaisedOther msg =>
      Run s [Called cursor_close (RaisedOther msg)] (Raise (OtherException msg))
  end.
Proof.
  intros Hcur.
  unfold __exit__, on_cursor, bind, get, modify, invoke, raise. simpl.
  rewrite Hcur. simpl. rewrite !app_nil_r.
  destruct (conn h cursor_close); reflexivity.
Qed.

Lemma session_run (conn : driver) (rows : list row) (s : SQLTarget)
  (h : list event) :
  session conn rows s h =
  match conn h connection_cursor with
  | Returned =>
      let opened := [Called connection_cursor Returned] in
      let w := writes conn rows (set_cursor true s) (h ++ opened) in
      let x := __exit__ conn (self_of w) ((h ++ opened) ++ events_of w) in
      Run (self_of x) (opened ++ events_of w ++ events_of x) (result_of x)
  | RaisedError msg =>
      Run s [Called connection_cursor (RaisedError msg)] (Raise (Error msg))
  | RaisedOther msg =>
      Run s [Called connection_cursor (RaisedOther msg)]
          (Raise (OtherException msg))
  end.
Proof.
  pose proof (enter_run conn s h) as Henter. unfold session.
  destruct (conn h connection_cursor) as [|msg|msg].
  - rewrite (bind_ok _ _ _ _ _ _ _ Henter). simpl.
    pose proof (writes_returns conn rows (set_cursor true s)
                  (h ++ [Called connection_cursor Returned])) as Hret.
    destruct (writes conn rows (set_cursor true s)
                (h ++ [Called connection_cursor Returned]))
      as [s1 ev1 res1] eqn:Hw.
    simpl in Hret. subst res1.
    rewrite (bind_ok _ _ _ _ _ _ _ Hw). reflexivity.
  - exact (bind_raise _ _ _ _ _ _ _ Henter).
  - exact (bind_raise _ _ _ _ _ _ _ Henter).
Qed.

(** What any number of [write] calls keep of an open writer. *)
Lemma writes_keep_session (conn : driver) (rows : list row) (s : SQLTarget)
  (h : list event) :
  Error_class (db_module s) = true ->
  _cursor s = true ->
  (same_config s (self_of (writes conn rows s h)) /\
   _cursor (self_of (writes conn rows s h)) = true) /\
  count is_cursor_call (events_of (writes conn rows s h)) = 0 /\
  count is_close_call (events_of (writes conn rows s h)) = 0.
Proof.
  intros Herr Hcur.
  apply (writes_invariant conn
           (fun s' => same_config s s' /\ _cursor s' = true)
           (fun tr => count is_cursor_call tr = 0 /\
                      count is_close_call tr = 0)).
  - split; reflexivity.
  - intros a b (Ha1 & Ha2) (Hb1 & Hb2). rewrite !count_app. lia.
  - intros r s' h' (Hcfg & Hcur').
    assert (Herr' : Error_class (db_module s') = true)
      by (destruct Hcfg as (Hm & _); rewrite <- Hm; exact Herr).
    destruct (write_keeps_config conn r s' h' Herr') as (Hcfg' & Hcur'').
    split; [split; [exact (same_config_trans _ _ _ Hcfg Hcfg')|congruence]|].
    destruct (write_trace conn r s' h' Herr')
      as (ddl & tail & Hev & Hddl & _ & _ & Htail).
    destruct (ddl_events_more _ Hddl) as (_ & _ & H1 & H2 & _).
    destruct (insert_trace_counts _ _ _ Htail) as (_ & H3 & H4 & _).
    rewrite Hev, !count_app. lia.
  - split; [apply same_config_refl|exact Hcur].
Qed.

(** X13: a session calls [connection.cursor()] exactly once, and
    [cursor.close()] exactly once if that call handed out a cursor and not
    at all if it raised; no [write] opens or closes a cursor. *)
Theorem cursor_closed_once (conn : driver) (rows : list row) (s : SQLTarget)
  (h : list event) :
  Error_class (db_module s) = true ->
  count is_cursor_call (events_of (session conn rows s h)) = 1 /\
  count is_close_call (events_of (session conn rows s h)) =
  count is_opened (events_of (session conn rows s h)).
Proof.
  intros Herr. rewrite session_run.
  destruct (conn h connection_cursor) as [|msg|msg]; simpl;
    try (split; reflexivity).
  destruct (writes_keep_session conn rows (set_cursor true s)
              (h ++ [Called connection_cursor Returned]) Herr eq_refl)
    as ((_ & Hcur) & W1 & W2).
  assert (Hopened : count is_opened
                      (events_of (writes conn rows (set_cursor true s)
                                    (h ++ [Called connection_cursor Returned])))
                    = 0).
  { unfold count in *. 
    assert (Hle : forall tr, (length (filter is_opened tr)
                              <= length (filter is_cursor_call tr))%nat).
    { induction tr as [|e tr IH]; simpl; [lia|].
      destruct e as [[| | |] [| |]|]; simpl; lia. }
    specialize (Hle (events_of (writes conn rows (set_cursor true s)
                                  (h ++ [Called connection_cursor Returned])))).
    lia. }
  rewrite (exit_run conn _ _ Hcur).
  rewrite !count_cons, !count_app, W1, W2, Hopened.
  destruct (conn _ cursor_close); simpl; rewrite ?count_cons, ?count_nil;
    simpl; split; reflexivity.
Qed.

Lemma cursor_closed_once_witness :
  count is_cursor_call
    (events_of (session Sample.refusing [Sample.row_xy]
                  (Sample.writer "qmark" defaults) [])) = 1 /\
  count is_close_call
    (events_of (session Sample.refusing [Sample.row_xy]
                  (Sample.writer "qmark" defaults) [])) =
  count is_opened
    (events_of (session Sample.refusing [Sample.row_xy]
                  (Sample.writer "qmark" defaults) [])).
Proof.
  exact (cursor_closed_once Sample.refusing [Sample.row_xy]
           (Sample.writer "qmark" defaults) [] eq_refl).
Defined.

(** X14: no method changes what the constructor fixed: after a whole
    session, whatever the rows were and whatever the driver raised, the
    module, the table, the threshold, the three flags and the type map are
    those the writer started with. *)
Theorem configuration_never_changes (conn : driver) (rows : list row)
  (s : SQLTarget) (h : list event) :
  Error_class (db_module s) = true ->
  same_config s (self_of (session conn rows s h)).
Proof.
  intros Herr. rewrite session_run.
  destruct (conn h connection_cursor) as [|msg|msg]; simpl;
    try apply same_config_refl.
  destruct (writes_keep_session conn rows (set_cursor true s)
              (h ++ [Called connection_cursor Returned]) Herr eq_refl)
    as ((Hcfg & Hcur) & _).
  rewrite (exit_run conn _ _ Hcur).
  destruct (conn _ cursor_close); simpl; exact Hcfg.
Qed.

Lemma configuration_never_changes_witness :
  same_config (Sample.writer "qmark" Sample.with_tables)
    (self_of (session Sample.no_table [Sample.row_xy; Sample.row_3]
                (Sample.writer "qmark" Sample.with_tables) [])).
Proof.
  exact (configuration_never_changes Sample.no_table
           [Sample.row_xy; Sample.row_3]
           (Sample.writer "qmark" Sample.with_tables) [] eq_refl).
Defined.

Lemma closed_in_session (conn : driver) (rows : list row) (s : SQLTarget)
  (h : list event) :
  Error_class (db_module s) = true ->
  In (Called cursor_close Returned) (events_of (session conn rows s h)) ->
  conn h connection_cursor = Returned /\
  conn ((h ++ [Called connection_cursor Returned]) ++
        events_of (writes conn rows (set_cursor true s)
                     (h ++ [Called connection_cursor Returned])))
       cursor_close = Returned.
Proof.
  intros Herr Hin. rewrite session_run in Hin.
  destruct (conn h connection_cursor) as [|msg|msg]; simpl in Hin;
    try (destruct Hin as [Heq|[]]; discriminate Heq).
  split; [reflexivity|].
  destruct (writes_keep_session conn rows (set_cursor true s)
              (h ++ [Called connection_cursor Returned]) Herr eq_refl)
    as ((_ & Hcur) & _ & Hclose).
  destruct Hin as [Heq|Hin]; [discriminate Heq|].
  apply in_app_or in Hin. destruct Hin as [Hin|Hin].
  - exfalso. unfold count in Hclose.
    assert (Hf : In (Called cursor_close Returned)
                    (filter is_close_call
                       (events_of (writes conn rows (set_cursor true s)
                                     (h ++ [Called connection_cursor Returned])))))
      by (apply filter_In; split; [exact Hin|reflexivity]).
    destruct (filter is_close_call _); [contradiction|discriminate Hclose].
  - rewrite (exit_run conn _ _ Hcur) in Hin.
    destruct (conn _ cursor_close) as [|msg|msg]; [reflexivity| |];
      simpl in Hin; destruct Hin as [Heq|[]]; discriminate Heq.
Qed.

(** X15: when the cursor close of a session returned, the session leaves a
    constructed writer exactly as the constructor made it (no cursor, no
    first row, no plan, counter at zero), even if the final commit failed:
    the same object can run another session. *)
Theorem closed_session_leaves_writer_as_constructed (conn : driver)
  (m : db_module_t) (tbl : string) (o : options) (t : SQLTarget)
  (rows : list row) (h : list event) :
  __init__ m tbl o = Ok t ->
  In (Called cursor_close Returned) (events_of (session conn rows t h)) ->
  self_of (session conn rows t h) = t.
Proof.
  intros Hinit Hin.
  unfold __init__ in Hinit.
  destruct (paramstyle m) as [style|] eqn:Hstyle; [|discriminate Hinit].
  destruct (Error_class m) eqn:Herr; simpl in Hinit; [|discriminate Hinit].
  destruct (opt_commit o <? 1) eqn:Hlt; [discriminate Hinit|].
  inversion Hinit as [Ht]. clear Hinit. subst t.
  set (t0 := attributes m tbl o) in *.
  assert (Herr0 : Error_class (db_module t0) = true) by exact Herr.
  destruct (closed_in_session conn rows t0 h Herr0 Hin) as (Hopen & Hclose).
  rewrite session_run, Hopen. simpl.
  destruct (writes_keep_session conn rows (set_cursor true t0)
              (h ++ [Called connection_cursor Returned]) Herr0 eq_refl)
    as ((Hcfg & Hcur) & _).
  rewrite (exit_run conn _ _ Hcur), Hclose. simpl.
  destruct (self_of (writes conn rows (set_cursor true t0)
                       (h ++ [Called connection_cursor Returned]))).
  unfold same_config in Hcfg. simpl in Hcfg.
  destruct Hcfg as (H1 & H2 & H3 & H4 & H5 & H6 & H7).
  unfold set_counter, set_insert, set_row_casts, set_first_row, set_cursor.
  simpl. subst. reflexivity.
Qed.

Lemma closed_session_leaves_writer_as_constructed_witness :
  self_of (session Sample.read_only [Sample.row_xy; Sample.row_xy]
             (Sample.writer "qmark" Sample.every_row) []) =
  Sample.writer "qmark" Sample.every_row.
Proof.
  apply (closed_session_leaves_writer_as_constructed Sample.read_only
           (Sample.module "qmark") "t" Sample.every_row
           (Sample.writer "qmark" Sample.every_row)
           [Sample.row_xy; Sample.row_xy] []).
  - reflexivity.
  - vm_compute. tauto.
Defined.

(** ** Managing the table *)

Lemma last_two {A} (l : list A) (a b : A) :
  firstn 2 (rev l) = [b; a] -> exists before, l = before ++ [a; b].
Proof.
  intros H. destruct (rev l) as [|x [|y rest]] eqn:Hrev; try discriminate H.
  simpl in H. inversion H; subst.
  exists (rev rest). rewrite <- (rev_involutive l), Hrev. simpl.
  rewrite <- app_assoc. reflexivity.
Qed.

(** X16: with create-table requested, the first [write] of a session sends
    its INSERT to the cursor only after the CREATE has been executed and the
    commit that follows it has returned: a CREATE (or its commit) that fails
    ends the call before any row is inserted. *)
Theorem create_committed_before_insert (conn : driver) (r : row)
  (s : SQLTarget) (h : list event) (q : option string) (params : list param)
  (o : outcome) :
  Error_class (db_module s) = true ->
  _first_row s = None ->
  create_table s = true ->
  In (Called (cursor_execute q (Some params)) o)
     (events_of (write conn r s h)) ->
  exists sql before after,
    create_statement s r = Ok sql /\
    events_of (write conn r s h) =
      before ++
      Called (cursor_execute (Some sql) None) Returned ::
      Called connection_commit Returned :: after /\
    In (Called (cursor_execute q (Some params)) o) after.
Proof.
  intros Herr Hnone Hcreate Hin.
  assert (Hfresh : truthy (_first_row s) = false) by (rewrite Hnone; reflexivity).
  pose proof (first_row_handling_keeps conn r s h) as (_ & _ & _ & Hddl & _).
  destruct (first_row_handling_more conn r s h Hfresh) as [_ _ _ Hdone].
  destruct (write_cases conn r s h Herr)
    as [(e & _ & Hw)|(Hres & t & _ & Hw)]; rewrite Hw in *; simpl in *.
  - exfalso. exact (ddl_events_not_insert _ _ _ _ Hddl Hin).
  - destruct (Hdone Hres Hcreate) as (sql & Hsql & Hlast).
    destruct (last_two _ _ _ Hlast) as (before & Hbefore).
    apply in_app_or in Hin. destruct Hin as [Hin|Hin].
    + exfalso. exact (ddl_events_not_insert _ _ _ _ Hddl Hin).
    + exists sql, before, (events_of t).
      rewrite Hbefore, <- app_assoc. auto.
Qed.

Lemma create_committed_before_insert_witness :
  exists sql before after,
    create_statement (Sample.entered "qmark" Sample.create_only)
      Sample.row_xy = Ok sql /\
    events_of (write Sample.accepting Sample.row_xy
                 (Sample.entered "qmark" Sample.create_only) []) =
      before ++
      Called (cursor_execute (Some sql) None) Returned ::
      Called connection_commit Returned :: after /\
    In (Called (cursor_execute (Some "INSERT INTO t VALUES (?, ?)"%string)
                  (Some [Unchanged Sample.text_a; StrForm "127.0.0.1"]))
               Returned)
       after.
Proof.
  apply (create_committed_before_insert Sample.accepting Sample.row_xy
           (Sample.entered "qmark" Sample.create_only) []).
  - reflexivity.
  - reflexivity.
  - reflexivity.
  - vm_compute. tauto.
Defined.

(** X17: with drop-table requested and drop errors ignored, the [try] of
    lines 228-233 covers the commit of line 166 as well: when the DROP
    returns and its commit raises the driver's [Error], the error is
    swallowed like that of a refused DROP, and the call goes on to the
    INSERT. *)
Theorem ignored_drop_covers_its_commit (conn : driver) (r : row)
  (s : SQLTarget) (h : list event) (sql ip_column_type msg : string)
  (params : list param) :
  _first_row s = None ->
  Error_class (db_module s) = true ->
  _cursor s = true ->
  drop_table s = true ->
  ignore_drop_errors s = true ->
  create_table s = false ->
  insert_statement s r = Ok sql ->
  getitem (type_map s) IPv4Address = Ok ip_column_type ->
  comprehension apply_cast
    (combine (row_casts_for (ip_cast_for ip_column_type) r) (items r)) =
    Ok params ->
  conn h (cursor_execute (Some (drop_statement s)) None) = Returned ->
  conn (h ++ [Called (cursor_execute (Some (drop_statement s)) None) Returned])
       connection_commit = RaisedError msg ->
  exists o rest,
    events_of (write conn r s h) =
      Called (cursor_execute (Some (drop_statement s)) None) Returned ::
      Called connection_commit (RaisedError msg) ::
      Called (cursor_execute (Some sql) (Some params)) o :: rest.
Proof.
  intros Hnone Herr Hcur Hdrop Hign Hcreate Hsql Hip Hbind Hc1 Hc2.
  set (planned := set_row_casts
                    (Some (row_casts_for (ip_cast_for ip_column_type) r))
                    (set_insert (Some sql) (set_first_row (Some r) s))).
  set (ddl := [Called (cursor_execute (Some (drop_statement s)) None) Returned;
               Called connection_commit (RaisedError msg)]).
  assert (Hf : first_row_handling conn r s h = Run planned ddl (Ok tt)).
  { unfold insert_statement, drop_statement in *.
    unfold first_row_handling, _generate_statement, _drop_table, on_cursor,
      except_Error, bind, get, modify, lift, invoke, raise, ret,
      insert_statement, drop_statement.
    rewrite Hnone. unfold truthy.
    repeat (progress (rewrite ?Hsql, ?Hip, ?Hdrop, ?Hcur, ?Hc1, ?Hc2, ?Herr,
                        ?Hign, ?Hcreate; tidy)).
    reflexivity. }
  destruct (write_cases conn r s h Herr)
    as [(e & Hres & _)|(_ & t & Hphase & Hw)].
  { rewrite Hf in Hres. discriminate Hres. }
  rewrite Hw. rewrite Hf in *. simpl in *.
  assert (Hb : bind_params r planned (h ++ ddl) = Run planned [] (Ok params)).
  { rewrite bind_params_run. simpl. rewrite Hbind. reflexivity. }
  destruct Hphase as [e Hb' Ht|ps e Hb' Hc Ht|ps m Hb' Hc Ho Ht
                     |ps ev Hb' Hc Ho Hev Ht|ps m ev Hb' Hc Ho Hev Ht];
    rewrite Hb in Hb'; inversion Hb'; subst; simpl in *;
    try congruence; eexists; eexists; reflexivity.
Qed.

Lemma ignored_drop_covers_its_commit_witness :
  exists o rest,
    events_of (write Sample.read_only Sample.row_xy
                 (Sample.entered "qmark" Sample.drop_only) []) =
      Called (cursor_execute (Some "DROP TABLE t"%string) None) Returned ::
      Called connection_commit (RaisedError "cannot commit") ::
      Called (cursor_execute (Some "INSERT INTO t VALUES (?, ?)"%string)
                (Some [Unchanged Sample.text_a; StrForm "127.0.0.1"])) o ::
      rest.
Proof.
  exact (ignored_drop_covers_its_commit Sample.read_only Sample.row_xy
           (Sample.entered "qmark" Sample.drop_only) []
           "INSERT INTO t VALUES (?, ?)" "VARCHAR(53)" "cannot commit"
           [Unchanged Sample.text_a; StrForm "127.0.0.1"]
           eq_refl eq_refl eq_refl eq_refl eq_refl eq_refl eq_refl eq_refl
           eq_refl eq_refl eq_refl).
Defined.

(** ** The threshold *)

Lemma apply_cast_error (cv : option cast * value) (e : exn) :
  apply_cast cv = Raise e -> e <> ZeroDivisionError.
Proof.
  destruct cv as [[[|]|] v]; simpl; try discriminate.
  destruct (int_ v); [discriminate|].
  intros H. inversion H. discriminate.
Qed.

Lemma count_and_commit_result (conn : driver) (s : SQLTarget) (h : list event) :
  commit s <> 0 ->
  result_of (count_and_commit conn s h) <> Raise ZeroDivisionError.
Proof.
  intros Hk. rewrite count_and_commit_run. simpl.
  destruct (commit s =? 0) eqn:Hz; [apply Z.eqb_eq in Hz; contradiction|].
  destruct ((_counter s + 1) mod commit s =? 0); simpl; [|discriminate].
  destruct (conn h connection_commit); discriminate.
Qed.

Lemma insert_phase_result (conn : driver) (r : row) (s : SQLTarget)
  (h : list event) :
  Error_class (db_module s) = true ->
  commit s <> 0 ->
  result_of ((params <- bind_params r ;;
              execute_insert conn r params ;;
              count_and_commit conn) s h) <> Raise ZeroDivisionError.
Proof.
  intros Herr Hk.
  pose proof (bind_params_run r s h) as Hbind.
  unfold bind at 1.
  destruct (bind_params r s h) as [s0 ev0 [params|e]] eqn:Hrun;
    inversion Hbind as [[Hs Hev Hres]]; subst s0 ev0; clear Hbind.
  2:{ simpl. intros H. inversion H; subst.
      destruct (_row_casts s) as [casts|]; [|discriminate Hres].
      symmetry in Hres.
      destruct (comprehension_raise_inv _ _ _ Hres) as (cv & _ & Hcv).
      exact (apply_cast_error _ _ Hcv eq_refl). }
  unfold execute_insert, except_Error, on_cursor, bind, get, emit, invoke,
    raise.
  tidy.
  destruct (_cursor s).
  2:{ rewrite Herr. simpl. discriminate. }
  tidy.
  destruct (conn h (cursor_execute (_insert s) (Some params))) as [|msg|msg].
  - pose proof (count_and_commit_result conn s
                  (h ++ [Called (cursor_execute (_insert s) (Some params))
                                Returned]) Hk) as Hcc.
    destruct (count_and_commit conn s _). exact Hcc.
  - rewrite Herr. tidy.
    pose proof (count_and_commit_result conn s
                  (h ++ [Called (cursor_execute (_insert s) (Some params))
                                (RaisedError msg);
                         Warned (msg ++ " while inserting row " ++ text r)%string])
                  Hk) as Hcc.
    destruct (count_and_commit conn s _). exact Hcc.
  - rewrite Herr. simpl. discriminate.
Qed.

(** X18: the constructor's check of the threshold protects the modulo of
    line 248: in no state of a constructed writer, for no row and no driver,
    does [write] raise [ZeroDivisionError]. *)
Theorem threshold_never_divides_by_zero (conn : driver) (m : db_module_t)
  (tbl : string) (o : options) (t s : SQLTarget) (r : row) (h : list event) :
  __init__ m tbl o = Ok t ->
  same_config t s ->
  result_of (write conn r s h) <> Raise ZeroDivisionError.
Proof.
  intros Hinit (Hmod & _ & Hcom & _).
  unfold __init__ in Hinit.
  destruct (paramstyle m) as [style|] eqn:Hstyle; [|discriminate Hinit].
  destruct (Error_class m) eqn:Herr; simpl in Hinit; [|discriminate Hinit].
  destruct (opt_commit o <? 1) eqn:Hlt; [discriminate Hinit|].
  inversion Hinit as [Ht]. apply Z.ltb_ge in Hlt. clear Hinit. subst t.
  simpl in Hmod, Hcom.
  assert (Herr' : Error_class (db_module s) = true) by (rewrite <- Hmod; exact Herr).
  pose proof (first_row_handling_keeps conn r s h) as ((Hm1 & _ & Hc1 & _) & _).
  assert (Hf : result_of (first_row_handling conn r s h)
               <> Raise ZeroDivisionError).
  { destruct (truthy (_first_row s)) eqn:Htruthy.
    - destruct (truthy_some _ Htruthy) as (first & Hfirst & _).
      rewrite (first_row_handling_fixed conn r first s h Hfirst Htruthy).
      destruct (negb _); discriminate.
    - destruct (first_row_handling_more conn r s h Htruthy) as [_ _ Hres _].
      exact Hres. }
  unfold write.
  destruct (first_row_handling conn r s h) as [s1 ev1 [[]|e]] eqn:Hrun;
    simpl in *.
  - rewrite (bind_ok (first_row_handling conn r)
               (fun _ => params <- bind_params r ;;
                         execute_insert conn r params ;;
                         count_and_commit conn)
               s h s1 ev1 tt Hrun).
    simpl. apply insert_phase_result; [congruence|]. rewrite <- Hc1. lia.
  - rewrite (bind_raise (first_row_handling conn r)
               (fun _ => params <- bind_params r ;;
                         execute_insert conn r params ;;
                         count_and_commit conn)
               s h s1 ev1 e Hrun).
    exact Hf.
Qed.

Lemma threshold_never_divides_by_zero_witness :
  result_of (write Sample.accepting Sample.row_xy
               (Sample.entered "qmark" Sample.every_row) []) <>
  Raise ZeroDivisionError.
Proof.
  apply (threshold_never_divides_by_zero Sample.accepting
           (Sample.module "qmark") "t" Sample.every_row
           (Sample.writer "qmark" Sample.every_row)
           (Sample.entered "qmark" Sample.every_row) Sample.row_xy []).
  - reflexivity.
  - unfold same_config. simpl. tauto.
Defined.

(** ** Commits after DROP and CREATE *)

Lemma commits_follow_app (a b : list event) :
  commits_follow a = true -> commits_follow b = true ->
  commits_follow (a ++ b) = true.
Proof.
  induction a as [|e a IH]; intros Ha Hb; [exact Hb|].
  destruct e as [[| |sql [ps|]|] [|m|m]|m]; simpl in *; auto.
  destruct a as [|[[| |sql' ps'|] o'|m'] a']; simpl in *;
    try discriminate Ha.
  apply IH; assumption.
Qed.

Lemma insert_trace_commits (q : option string) (r : row) (tr : list event) :
  insert_trace q r tr -> commits_follow tr = true.
Proof.
  intros [|ps msg|ps cc [Hcc|(o & Hcc)]|ps msg cc [Hcc|(o & Hcc)]];
    try subst cc; reflexivity.
Qed.

Lemma insert_phase_trace (conn : driver) (r : row) (s : SQLTarget)
  (h : list event) (t : run unit) :
  insert_phase conn r s h t -> insert_trace (_insert s) r (events_of t).
Proof.
  intros [e Hb Ht|ps e Hb Hc Ht|ps msg Hb Hc Ho Ht
         |ps ev Hb Hc Ho Hev Ht|ps msg ev Hb Hc Ho Hev Ht];
    subst t; simpl; try subst ev; simpl.
  - constructor.
  - constructor.
  - constructor.
  - apply insert_accepted. apply count_and_commit_events.
  - apply insert_rejected. apply count_and_commit_events.
Qed.

(** X19: whenever a DROP or a CREATE returns, the very next call on the
    driver is [connection.commit()]: over any number of [write] calls no
    executed statement without parameters is left uncommitted before the
    next statement. *)
Theorem ddl_committed_at_once (conn : driver) (rows : list row)
  (s : SQLTarget) (h : list event) :
  Error_class (db_module s) = true ->
  commits_follow (events_of (writes conn rows s h)) = true.
Proof.
  intros Herr.
  apply (writes_invariant conn
           (fun s' => Error_class (db_module s') = true)
           (fun tr => commits_follow tr = true)).
  - reflexivity.
  - apply commits_follow_app.
  - intros r s' h' Herr'.
    destruct (write_keeps_config conn r s' h' Herr') as ((Hm & _) & _).
    split; [congruence|].
    assert (Hf : commits_follow (events_of (first_row_handling conn r s' h'))
                 = true).
    { destruct (truthy (_first_row s')) eqn:Htruthy.
      - destruct (truthy_some _ Htruthy) as (first & Hfirst & _).
        rewrite (first_row_handling_fixed conn r first s' h' Hfirst Htruthy).
        destruct (negb _); reflexivity.
      - destruct (first_row_handling_more conn r s' h' Htruthy) as [Hc _ _ _].
        exact Hc. }
    destruct (write_cases conn r s' h' Herr')
      as [(e & _ & Hw)|(_ & t & Hphase & Hw)]; rewrite Hw; simpl.
    + exact Hf.
    + apply commits_follow_app; [exact Hf|].
      exact (insert_trace_commits _ _ _ (insert_phase_trace _ _ _ _ _ Hphase)).
  - exact Herr.
Qed.

Lemma ddl_committed_at_once_witness :
  commits_follow
    (events_of (writes Sample.read_only [Sample.row_xy; Sample.row_xy]
                  (Sample.entered "qmark" Sample.with_tables) [])) = true.
Proof.
  exact (ddl_committed_at_once Sample.read_only [Sample.row_xy; Sample.row_xy]
           (Sample.entered "qmark" Sample.with_tables) [] eq_refl).
Defined.

(** ** An unsupported paramstyle *)

Lemma write_without_casts (conn : driver) (r : row) (s : SQLTarget)
  (h : list event) :
  Error_class (db_module s) = true ->
  truthy (_first_row s) = true ->
  _row_casts s = None ->
  events_of (write conn r s h) = [] /\ self_of (write conn r s h) = s /\
  exists e, result_of (write conn r s h) = Raise e.
Proof.
  intros Herr Htruthy Hcasts.
  destruct (truthy_some _ Htruthy) as (first & Hfirst & _).
  pose proof (first_row_handling_fixed conn r first s h Hfirst Htruthy) as Hf.
  destruct (write_cases conn r s h Herr)
    as [(e & Hres & Hw)|(_ & t & Hphase & Hw)]; rewrite Hw, Hf in *.
  - destruct (negb _); simpl in *; [eauto|discriminate Hres].
  - assert (Hs : self_of (if negb (Nat.eqb (len r) (len first))
                          then Run s [] (Raise (TypeError
                                 "Rows must have the same number of elements"))
                          else Run s [] (Ok tt)) = s)
      by (destruct (negb _); reflexivity).
    assert (He : events_of (if negb (Nat.eqb (len r) (len first))
                            then Run s [] (Raise (TypeError
                                   "Rows must have the same number of elements"))
                            else Run s [] (Ok tt)) = [])
      by (destruct (negb _); reflexivity).
    rewrite Hs, He in *. simpl.
    destruct Hphase as [e Hb Ht|ps e Hb Hc Ht|ps msg Hb Hc Ho Ht
                       |ps ev Hb Hc Ho Hev Ht|ps msg ev Hb Hc Ho Hev Ht];
      rewrite bind_params_run, Hcasts in Hb; inversion Hb; subst t; simpl;
      eauto.
Qed.

(** X20: with a paramstyle that is none of the five, a session whose first
    row is not empty never reaches the driver: the first [write] raises
    [KeyError] before the DROP, the CREATE or the INSERT, and since the first
    row is already on record without any casts, every later [write] raises
    as well without executing anything. *)
Theorem unsupported_style_blocks_session (conn : driver) (r : row)
  (rows : list row) (s : SQLTarget) (h : list event) (style : string) :
  Error_class (db_module s) = true ->
  paramstyle (db_module s) = Some style ->
  supported style = false ->
  _first_row s = None ->
  _row_casts s = None ->
  field_names r <> [] ->
  items r <> [] ->
  result_of (write conn r s h) = Raise (KeyError_str style) /\
  events_of (writes conn (r :: rows) s h) = [].
Proof.
  intros Herr Hstyle Hsup Hnone Hcasts Hnames Hitems.
  assert (Hfresh : truthy (_first_row s) = false) by (rewrite Hnone; reflexivity).
  pose proof (insert_text_unknown_style (db_module s) (table s) r style
                Hstyle Hsup Hnames) as Hraise.
  destruct (first_row_handling_fresh conn r s h Hfresh)
    as [_ _ _ _ _ _ _ Hnoplan _ _ _ _ _].
  specialize (Hnoplan _ Hraise).
  assert (Hw : write conn r s h =
               Run (set_first_row (Some r) s) [] (Raise (KeyError_str style))).
  { exact (bind_raise (first_row_handling conn r)
             (fun _ => params <- bind_params r ;;
                       execute_insert conn r params ;;
                       count_and_commit conn)
             s h _ _ _ Hnoplan). }
  split; [rewrite Hw; reflexivity|].
  simpl. unfold bind, attempt. rewrite Hw. simpl. rewrite app_nil_r.
  assert (Hrest : forall rows' h',
             events_of (writes conn rows' (set_first_row (Some r) s) h') = []).
  { intros rows' h'.
    apply (writes_invariant conn
             (fun s' => s' = set_first_row (Some r) s)
             (fun tr => tr = [])).
    - reflexivity.
    - intros a b Ha Hb. subst. reflexivity.
    - intros r' s' h'' Hs'. subst s'.
      destruct (write_without_casts conn r' (set_first_row (Some r) s) h'')
        as (He & Hs & _); auto.
      simpl. apply truthy_nonempty. exact Hitems.
    - reflexivity. }
  specialize (Hrest rows h).
  destruct (writes conn rows (set_first_row (Some r) s) h). simpl in *.
  exact Hrest.
Qed.

Lemma unsupported_style_blocks_session_witness :
  result_of (write Sample.accepting Sample.row_xy
               (Sample.entered "dollar" Sample.with_tables) []) =
    Raise (KeyError_str "dollar") /\
  events_of (writes Sample.accepting
               [Sample.row_xy; Sample.row_xy; Sample.row_3]
               (Sample.entered "dollar" Sample.with_tables) []) = [].
Proof.
  apply (unsupported_style_blocks_session Sample.accepting Sample.row_xy
           [Sample.row_xy; Sample.row_3]
           (Sample.entered "dollar" Sample.with_tables) [] "dollar");
    try reflexivity; discriminate.
Defined.
